(** * Geographic utilities of the GIS plugin

    A shallow embedding of [x-pack/plugins/gis/public/elasticsearch_geo_utils.js]
    and the properties of its functions: [hitsToGeoJson], [geoPointToGeometry],
    [geoShapeToGeometry], [createExtentFilter] and
    [convertMapExtentToEnvelope]. *)

From Stdlib Require Import QArith Qabs Qround Lqa Lia Floats Ascii String.
From stdpp Require Import base option list gmap strings.

#[local] Open Scope string_scope.

(** * Numbers

    The functions only compare numbers, add and subtract them and take absolute
    values. They are written once over this interface and read at two
    instances: exact arithmetic ([Exact.num], rationals and NaN), in which the
    general properties are proved, and IEEE 754 binary64 ([float], the numbers
    the program runs on), in which the functions are evaluated where rounding
    matters. *)

Class JsNumber (Num : Type) := {
  num_lit : Z -> Num;           (* an integer literal such as [180] or [-90] *)
  num_lt : Num -> Num -> bool;  (* [a < b] *)
  num_le : Num -> Num -> bool;  (* [a <= b] *)
  num_add : Num -> Num -> Num;  (* [a + b] *)
  num_sub : Num -> Num -> Num;  (* [a - b] *)
  num_abs : Num -> Num          (* [Math.abs(a)] *)
}.

Declare Scope js_scope.
Delimit Scope js_scope with js.
Notation "a <? b" := (num_lt a b) : js_scope.
Notation "a >? b" := (num_lt b a) : js_scope.
Notation "a <=? b" := (num_le a b) : js_scope.
Notation "a + b" := (num_add a b) : js_scope.
Notation "a - b" := (num_sub a b) : js_scope.

(** [lo <= n && n <= hi]: [n] lies in the closed range; false on NaN. *)
Definition within {Num : Type} `{JsNumber Num} (lo hi : Z) (n : Num) : bool :=
  (num_lit lo <=? n)%js && (n <=? num_lit hi)%js.

(** What the comparisons of both instances share: [a <= b] excludes
    [b < a]. *)
Class JsOrder (Num : Type) `{JsNumber Num} : Prop := {
  le_not_gt : forall a b : Num, (a <=? b)%js = true -> (b <? a)%js = false
}.

Module Exact.

(** Rationals with NaN: JavaScript numbers without rounding. *)
Inductive num : Type :=
| NaN
| Fin (q : Q).

Definition Qlt_bool (x y : Q) : bool := negb (Qle_bool y x).

Definition lit (z : Z) : num := Fin (inject_Z z).

Definition lt (a b : num) : bool :=
  match a, b with
  | Fin x, Fin y => Qlt_bool x y
  | _, _ => false
  end.

Definition le (a b : num) : bool :=
  match a, b with
  | Fin x, Fin y => Qle_bool x y
  | _, _ => false
  end.

Definition add (a b : num) : num :=
  match a, b with
  | Fin x, Fin y => Fin (x + y)
  | _, _ => NaN
  end.

Definition sub (a b : num) : num :=
  match a, b with
  | Fin x, Fin y => Fin (x - y)
  | _, _ => NaN
  end.

Definition abs (a : num) : num :=
  match a with
  | Fin x => Fin (Qabs x)
  | NaN => NaN
  end.

(** [a === b] *)
Definition eqb (a b : num) : bool :=
  match a, b with
  | Fin x, Fin y => Qeq_bool x y
  | _, _ => false
  end.

#[global] Instance exact : JsNumber num :=
  {| num_lit := lit; num_lt := lt; num_le := le;
     num_add := add; num_sub := sub; num_abs := abs |}.

(** The numeric value of a decimal integer literal with an optional sign;
    an instance of the built-in [parseFloat] on such texts, NaN on the
    others. *)
Definition digit (c : ascii) : option Z :=
  let n := N_of_ascii c in
  if ((48 <=? n) && (n <=? 57))%N then Some (Z.of_N n - 48)%Z else None.

Fixpoint digits (acc : Z) (s : string) : option Z :=
  match s with
  | EmptyString => Some acc
  | String c s' =>
      match digit c with
      | Some d => digits (10 * acc + d)%Z s'
      | None => None
      end
  end.

Definition parseInteger (s : string) : num :=
  match s with
  | EmptyString => NaN
  | String "-" (String c s') =>
      match digits 0 (String c s') with
      | Some z => Fin (inject_Z (- z))
      | None => NaN
      end
  | _ =>
      match digits 0 s with
      | Some z => Fin (inject_Z z)
      | None => NaN
      end
  end.

(** A whole number that is at least [|a|]; 0 for NaN. *)
Definition magnitude (a : num) : nat :=
  match a with
  | Fin x => Z.to_nat (Qceiling (Qabs x))
  | NaN => 0
  end.

End Exact.

Module Binary64.

(** IEEE 754 binary64, the kernel's primitive floats. *)
Definition lit (z : Z) : float :=
  match z with
  | Z0 => PrimFloat.of_uint63 (Uint63.of_Z 0)
  | Zpos _ => PrimFloat.of_uint63 (Uint63.of_Z z)
  | Zneg p => PrimFloat.opp (PrimFloat.of_uint63 (Uint63.of_Z (Zpos p)))
  end.

#[global] Instance binary64 : JsNumber float :=
  {| num_lit := lit; num_lt := PrimFloat.ltb; num_le := PrimFloat.leb;
     num_add := PrimFloat.add; num_sub := PrimFloat.sub;
     num_abs := PrimFloat.abs |}.

End Binary64.

(** * Values

    The data the functions receive is JSON-like: search hits and their
    fields. An object is a finite map from its own property names to values;
    the order of the properties is not observed by any of the functions. *)

Section Values.
Context {Num : Type}.

#[warnings="-register-all"] Inductive value : Type :=
| VUndefined
| VNull
| VBool (b : bool)
| VNum (n : Num)
| VStr (s : string)
| VArr (l : list value)
| VObj (m : gmap string value).

(** What a function can throw. The two [Error]s about geometry and the one
    about the field type carry what their message interpolates. *)
Inductive error : Type :=
| UnsupportedFieldType (geoFieldType : value)
| GeohashNotSupported
| WktNotSupported
| GeometryNotSupported (type : value)
| TypeError.

Inductive result (A : Type) : Type :=
| Ok (a : A)
| Throw (e : error).
#[global] Arguments Ok {A} a.
#[global] Arguments Throw {A} e.

Definition bind {A B : Type} (r : result A) (k : A -> result B) : result B :=
  match r with
  | Ok a => k a
  | Throw e => Throw e
  end.

Definition throws {A : Type} (r : result A) : bool :=
  match r with
  | Ok _ => false
  | Throw _ => true
  end.

(** [l.map(f)] where [f] may throw: the elements are visited in order and the
    first exception leaves the loop. *)
Fixpoint mapM {A B : Type} (f : A -> result B) (l : list A) : result (list B) :=
  match l with
  | [] => Ok []
  | a :: l' =>
      bind (f a) (fun b => bind (mapM f l') (fun bs => Ok (b :: bs)))
  end.

(** [typeof value === 'string'] *)
Definition is_string (v : value) : bool :=
  match v with
  | VStr _ => true
  | _ => false
  end.

(** [v === s] for a string literal [s] *)
Definition is_str (s : string) (v : value) : bool :=
  match v with
  | VStr s' => String.eqb s' s
  | _ => false
  end.

(** [v[i]] on an array *)
Definition index (i : nat) (l : list value) : value :=
  default VUndefined (l !! i).

(** [v.k], for a name [k] that no prototype defines and that is neither an
    array index nor [length] (here: [type], [lat], [lon]). Reading a property
    of [null] or [undefined] throws a TypeError; numbers, booleans, strings
    and arrays have no such property. *)
Definition prop (k : string) (v : value) : result value :=
  match v with
  | VUndefined | VNull => Throw TypeError
  | VObj m => Ok (default VUndefined (m !! k))
  | _ => Ok VUndefined
  end.

(** [v.k = x], reached on objects only. *)
Definition assign (k : string) (x : value) (v : value) : value :=
  match v with
  | VObj m => VObj (<[k := x]> m)
  | _ => v
  end.

(** Modelled from the spec: lodash is not part of the sources. [_.cloneDeep]
    deep-copies its argument, so that the caller's value is not mutated: on
    plain data the copy is structurally equal to the original. *)
Fixpoint cloneDeep (v : value) : value :=
  match v with
  | VArr l => VArr (cloneDeep <$> l)
  | VObj m => VObj (cloneDeep <$> m)
  | _ => v
  end.

(** The number of constructors of a value, the measure of the induction
    through arrays and objects. *)
Fixpoint value_size (v : value) : nat :=
  match v with
  | VArr l => S (sum_list (value_size <$> l))
  | VObj m => S (sum_list ((map_to_list (value_size <$> m)).*2))
  | _ => 1
  end.

(** [s.split(c)] for a one-character separator: never empty, and a single
    segment exactly when [c] does not occur in [s]. *)
Fixpoint split (c : ascii) (s : string) : list string :=
  match s with
  | EmptyString => [EmptyString]
  | String a s' =>
      if Ascii.eqb a c then EmptyString :: split c s'
      else match split c s' with
           | seg :: rest => String a seg :: rest
           | [] => [String a EmptyString]
           end
  end.

Fixpoint occurs (c : ascii) (s : string) : bool :=
  match s with
  | EmptyString => false
  | String a s' => Ascii.eqb a c || occurs c s'
  end.

End Values.
Arguments value : clear implicits.
Arguments error : clear implicits.
Arguments result : clear implicits.

Notation "x <- r ;; k" := (bind r (fun x => k))
  (at level 100, r at next level, right associativity).

(** * The functions of [elasticsearch_geo_utils.js] *)

Section GeoUtils.
Context {Num : Type}.

(** The built-in [parseFloat]. *)
Variable parseFloat : string -> Num.

#[local] Abbreviation value := (value Num).
#[local] Abbreviation result := (result Num).

(** ** Points and shapes *)

(** [{ type: 'Point', coordinates: [lon, lat] }] *)
Definition Point (lon lat : value) : value :=
  VObj {[ "type" := VStr "Point"; "coordinates" := VArr [lon; lat] ]}.

Definition geoPointToGeometry (v : value) : result value :=
  match v with
  | VStr s =>
      let commaSplit := split "," s in
      if (length commaSplit =? 1)%nat then
        (* Geo-point expressed as a geohash. *)
        Throw GeohashNotSupported
      else
        (* Geo-point expressed as a string with the format: "lat,lon". *)
        let lat := parseFloat (nth 0 commaSplit "undefined") in
        let lon := parseFloat (nth 1 commaSplit "undefined") in
        Ok (Point (VNum lon) (VNum lat))
  | VArr l =>
      (* Geo-point expressed as an array with the format: [lon, lat] *)
      let lat := index 1 l in
      let lon := index 0 l in
      Ok (Point lon lat)
  | VObj m =>
      lat <- prop "lat" v;;
      lon <- prop "lon" v;;
      Ok (Point lon lat)
  | _ =>
      (* neither a string, an array nor a non-null object: [lat] and [lon]
         stay undefined *)
      Ok (Point VUndefined VUndefined)
  end.


(** The [switch] of [geoShapeToGeometry]: the GeoJSON spelling of an
    Elasticsearch type, [None] when no [case] matches. *)
Definition geoJsonType (t : value) : option string :=
  if is_str "point" t then Some "Point"
  else if is_str "linestring" t then Some "LineString"
  else if is_str "polygon" t then Some "Polygon"
  else if is_str "multipoint" t then Some "MultiPoint"
  else if is_str "multilinestring" t then Some "MultiLineString"
  else if is_str "geometrycollection" t then Some "GeometryCollection"
  else None.

Definition geoShapeToGeometry (v : value) : result value :=
  if is_string v then Throw WktNotSupported
  else
    let geoJson := cloneDeep v in
    t <- prop "type" geoJson;;
    let geoJson :=
      match geoJsonType t with
      | Some t' => assign "type" (VStr t') geoJson
      | None => geoJson
      end in
    t <- prop "type" geoJson;;
    if is_str "envelope" t || is_str "circle" t
    then Throw (GeometryNotSupported t)
    else Ok geoJson.

(** [v.type] when [v] is an object, [undefined] elsewhere. *)
Definition tag (v : value) : value :=
  match v with
  | VObj m => default VUndefined (m !! "type")
  | _ => VUndefined
  end.

Definition is_envelope_or_circle (v : value) : bool :=
  is_str "envelope" (tag v) || is_str "circle" (tag v).

Definition is_nullish (v : value) : bool :=
  match v with
  | VUndefined | VNull => true
  | _ => false
  end.

(** The table of the specification: the six lowercase type tags and their
    mixed-case GeoJSON equivalents. *)
Definition spec_type_table : list (string * string) :=
  [ ("point", "Point"); ("linestring", "LineString"); ("polygon", "Polygon");
    ("multipoint", "MultiPoint"); ("multilinestring", "MultiLineString");
    ("geometrycollection", "GeometryCollection") ].

Fixpoint table_lookup (k : string) (table : list (string * string))
    : option string :=
  match table with
  | [] => None
  | (k', x) :: table' => if String.eqb k k' then Some x else table_lookup k table'
  end.

(** A tag rewritten through the table; a tag that is not in the table, or
    not a text, passes through unchanged. *)
Definition spec_translate (t : value) : value :=
  match t with
  | VStr s =>
      match table_lookup s spec_type_table with
      | Some s' => VStr s'
      | None => t
      end
  | _ => t
  end.

(** ** Search hits *)

(** A search hit: its [_source] document and its computed [fields], either
    of which may be absent. *)
Record Hit : Type := {
  _source : option (gmap string value);
  fields : option (gmap string value)
}.

(** lodash's [_.has] and [_.get], applied to a hit and a path. lodash is not
    part of the sources, and how it reads a path (dots, brackets, quotes) is
    its own affair: the functions below hold for whatever it answers. *)
Variable lodash_has : Hit -> string -> bool.
Variable lodash_get : Hit -> string -> value.

(** [`_source[${geoFieldName}]`] *)
Definition source_path (geoFieldName : string) : string :=
  "_source[" +:+ geoFieldName +:+ "]".

(** The prototype of the object [properties]: [Object.prototype] at first,
    whose accessor [__proto__] an assignment can reach, or what such an
    assignment has put in its place, an object, an array or [null]. *)
Inductive Prototype : Type :=
| ObjectPrototype
| Replaced (p : value).

(** The object [properties] while the loops fill it: its own properties and
    its prototype. *)
Record Properties : Type := {
  own : gmap string value;
  proto : Prototype
}.

(** [const properties = {}] *)
Definition new_properties : Properties :=
  {| own := ∅; proto := ObjectPrototype |}.

(** [typeof x === 'object'], [null] included: what the setter of [__proto__]
    accepts. *)
Definition is_object_or_null (x : value) : bool :=
  match x with
  | VNull | VArr _ | VObj _ => true
  | _ => false
  end.

(** The setter of [Object.prototype.__proto__]: an object or [null] becomes
    the prototype, anything else is ignored. *)
Definition set_prototype (x : value) (properties : Properties) : Properties :=
  if is_object_or_null x
  then {| own := own properties; proto := Replaced x |}
  else properties.

(** An assignment to [__proto__] looks the name up along the prototypes: a
    data property of that name (a field [__proto__] of the object that now
    is the prototype) or the end of the chain (a [null] prototype) makes it
    an ordinary assignment, and otherwise it arrives at the accessor. *)
Definition reaches_accessor (properties : Properties) : bool :=
  match own properties !! "__proto__", proto properties with
  | Some _, _ => false
  | None, ObjectPrototype => true
  | None, Replaced VNull => false
  | None, Replaced (VObj o) => negb (bool_decide (is_Some (o !! "__proto__")))
  | None, Replaced _ => true
  end.

(** [properties[fieldName] = x] *)
Definition set_property (fieldName : string) (x : value)
    (properties : Properties) : Properties :=
  if bool_decide (fieldName = "__proto__") && reaches_accessor properties
  then set_prototype x properties
  else {| own := <[fieldName := x]> (own properties);
          proto := proto properties |}.

(** [for (const fieldName in o) { if (o.hasOwnProperty(fieldName)) body }]
    over an object that may be absent. [o.hasOwnProperty] is looked up on
    [o] itself: a document with an own field of that name has a value there
    that cannot be called, and the first iteration throws. The fields are
    visited in an order of their own; the only assignment that depends on
    what came before is the one to [__proto__], which a loop makes once. *)
Definition for_own {S : Type} (o : option (gmap string value))
    (body : string -> value -> S -> S) (properties : S) : result S :=
  match o with
  | None => Ok properties
  | Some m =>
      if bool_decide (is_Some (m !! "hasOwnProperty")) then Throw TypeError
      else Ok (map_fold body properties m)
  end.

(** [Array.isArray(val) && val.length === 1 ? val[0] : val] *)
Definition unwrap (val : value) : value :=
  match val with
  | VArr [x] => x
  | _ => val
  end.

(** [{ type: 'Feature', geometry, properties }]; of [properties] the value
    keeps the own properties. *)
Definition Feature (geometry : value) (properties : gmap string value) : value :=
  VObj {[ "type" := VStr "Feature"; "geometry" := geometry;
          "properties" := VObj properties ]}.

(** The callback of [hits.filter(...).map(...)]. *)
Definition hitToFeature (geoFieldName : string) (geoFieldType : value)
    (hit : Hit) : result value :=
  let value := lodash_get hit (source_path geoFieldName) in
  geometry <-
    (if is_str "geo_point" geoFieldType then geoPointToGeometry value
     else if is_str "geo_shape" geoFieldType then geoShapeToGeometry value
     else Throw (UnsupportedFieldType geoFieldType));;
  properties <-
    for_own (_source hit)
      (fun fieldName x properties =>
         if bool_decide (fieldName <> geoFieldName)
         then set_property fieldName x properties
         else properties)
      new_properties;;
  (* hit.fields contains calculated values from docvalue_fields and
     script_fields *)
  properties <-
    for_own (fields hit)
      (fun fieldName val properties =>
         set_property fieldName (unwrap val) properties)
      properties;;
  Ok (Feature geometry (own properties)).

(** [{ type: 'FeatureCollection', features }] *)
Definition FeatureCollection (features : list value) : value :=
  VObj {[ "type" := VStr "FeatureCollection"; "features" := VArr features ]}.

Definition hitsToGeoJson (hits : list Hit) (geoFieldName : string)
    (geoFieldType : value) : result value :=
  features <-
    mapM (hitToFeature geoFieldName geoFieldType)
         (filter (fun hit => lodash_has hit (source_path geoFieldName) = true)
                 hits);;
  Ok (FeatureCollection features).

End GeoUtils.
Arguments Hit : clear implicits.
Arguments Properties : clear implicits.
Arguments Prototype : clear implicits.

(** ** lodash on plain field names *)

Section PlainNames.
Context {Num : Type}.

#[local] Abbreviation value := (value Num).

(** The name between the brackets of a path [_source[name]]. *)
Definition path_name (path : string) : string :=
  substring 8 (String.length path - 9) path.

(** An instance of [_.has] and one of [_.get] to run the functions on
    examples, where the geo field is named [location]. For a name of
    letters that no object inherits, lodash reads the path [_source[name]]
    as the two keys [_source] and [name]: [_.has] asks whether the document
    has the own property [name], and [_.get] returns its value. A name with
    a dot, a bracket or a quote in it lodash reads otherwise, and these two
    are not for it: no theorem is stated through them. *)
Definition plain_has (hit : Hit Num) (path : string) : bool :=
  match _source hit with
  | Some src => bool_decide (is_Some (src !! path_name path))
  | None => false
  end.

Definition plain_get (hit : Hit Num) (path : string) : value :=
  match _source hit with
  | Some src => default VUndefined (src !! path_name path)
  | None => VUndefined
  end.

(** The object has an own property [hasOwnProperty], which hides the method
    of that name. *)
Definition shadows (o : option (gmap string value)) : bool :=
  match o with
  | Some m => bool_decide (is_Some (m !! "hasOwnProperty"))
  | None => false
  end.

(** The object, if there is one, has no field named [__proto__]. *)
Definition no_proto_field (o : option (gmap string value)) : Prop :=
  o ≫= (fun m => m !! "__proto__") = None.

End PlainNames.

(** ** Map extents *)

Section Extents.
Context {Num : Type} `{JsNumber Num}.

#[local] Abbreviation value := (value Num).
#[local] Abbreviation result := (result Num).

Record MapExtent : Type := {
  maxLat : Num;
  maxLon : Num;
  minLat : Num;
  minLon : Num
}.

(** [{ lat, lon }], a corner of a bounding box *)
Record LatLon : Type := {
  lat : Num;
  lon : Num
}.

(** [{ type: 'envelope', coordinates: [[minLon, maxLat], [maxLon, minLat]] }] *)
Record Envelope : Type := {
  type : string;
  coordinates : list (list Num)
}.

(** The two filters [createExtentFilter] builds, each under the name of the
    geo field. *)
Inductive ExtentFilter : Type :=
| geo_bounding_box (geoFieldName : string) (top_left bottom_right : LatLon)
| geo_shape (geoFieldName : string) (shape : Envelope) (relation : string).

Definition createExtentFilter (mapExtent : MapExtent) (geoFieldName : string)
    (geoFieldType : value) : result ExtentFilter :=
  let noWrapMapExtent :=
    {| minLon := if (minLon mapExtent <? num_lit (-180))%js
                 then num_lit (-180) else minLon mapExtent;
       minLat := if (minLat mapExtent <? num_lit (-90))%js
                 then num_lit (-90) else minLat mapExtent;
       maxLon := if (maxLon mapExtent >? num_lit 180)%js
                 then num_lit 180 else maxLon mapExtent;
       maxLat := if (maxLat mapExtent >? num_lit 90)%js
                 then num_lit 90 else maxLat mapExtent |} in
  if is_str "geo_point" geoFieldType then
    Ok (geo_bounding_box geoFieldName
          {| lat := maxLat noWrapMapExtent; lon := minLon noWrapMapExtent |}
          {| lat := minLat noWrapMapExtent; lon := maxLon noWrapMapExtent |})
  else if is_str "geo_shape" geoFieldType then
    Ok (geo_shape geoFieldName
          {| type := "envelope";
             coordinates :=
               [ [minLon noWrapMapExtent; maxLat noWrapMapExtent];
                 [maxLon noWrapMapExtent; minLat noWrapMapExtent] ] |}
          "INTERSECTS")
  else Throw (UnsupportedFieldType geoFieldType).

(** The longitudes and the latitudes that appear in a filter. *)
Definition envelope_lons (e : Envelope) : list Num :=
  omap head (coordinates e).

Definition envelope_lats (e : Envelope) : list Num :=
  omap (fun c => c !! 1%nat) (coordinates e).

Definition filter_lons (f : ExtentFilter) : list Num :=
  match f with
  | geo_bounding_box _ tl br => [lon tl; lon br]
  | geo_shape _ shape _ => envelope_lons shape
  end.

Definition filter_lats (f : ExtentFilter) : list Num :=
  match f with
  | geo_bounding_box _ tl br => [lat tl; lat br]
  | geo_shape _ shape _ => envelope_lats shape
  end.

(** What [convertMapExtentToEnvelope] returns: one envelope, or an array of
    two results of its own. *)
Inductive Envelopes : Type :=
| One (e : Envelope)
| Two (first second : Envelopes).

(** The recursion is not structural: [fuel] bounds the depth of the calls
    and [None] stands for a call that did not return within it. *)
Fixpoint convertMapExtentToEnvelope (fuel : nat) (extent : MapExtent)
    : option Envelopes :=
  match fuel with
  | O => None
  | S fuel =>
      let maxLat := maxLat extent in
      let maxLon := maxLon extent in
      let minLat := minLat extent in
      let minLon := minLon extent in
      if (maxLon >? num_lit 180)%js && (minLon <? num_lit (-180))%js then
        convertMapExtentToEnvelope fuel
          {| maxLat := maxLat; maxLon := num_lit 180;
             minLat := minLat; minLon := num_lit (-180) |}
      else if (maxLon >? num_lit 180)%js then
        (* bounds cross dateline east to west, split into 2 shapes *)
        let overlapWestOfDateLine := (maxLon - num_lit 180)%js in
        a ← convertMapExtentToEnvelope fuel
              {| maxLat := maxLat; maxLon := num_lit 180;
                 minLat := minLat; minLon := minLon |};
        b ← convertMapExtentToEnvelope fuel
              {| maxLat := maxLat;
                 maxLon := (num_lit (-180) + overlapWestOfDateLine)%js;
                 minLat := minLat; minLon := num_lit (-180) |};
        Some (Two a b)
      else if (minLon <? num_lit (-180))%js then
        (* bounds cross dateline west to east, split into 2 shapes *)
        let overlapEastOfDateLine := (num_abs minLon - num_lit 180)%js in
        a ← convertMapExtentToEnvelope fuel
              {| maxLat := maxLat; maxLon := num_lit 180;
                 minLat := minLat;
                 minLon := (num_lit 180 - overlapEastOfDateLine)%js |};
        b ← convertMapExtentToEnvelope fuel
              {| maxLat := maxLat; maxLon := maxLon;
                 minLat := minLat; minLon := num_lit (-180) |};
        Some (Two a b)
      else
        Some (One {| type := "envelope";
                     coordinates := [ [minLon; maxLat]; [maxLon; minLat] ] |})
  end.

(** All the envelopes of a result, left to right. *)
Fixpoint envelopes (r : Envelopes) : list Envelope :=
  match r with
  | One e => [e]
  | Two a b => envelopes a ++ envelopes b
  end.

End Extents.
Arguments MapExtent : clear implicits.
Arguments LatLon : clear implicits.
Arguments Envelope : clear implicits.
Arguments ExtentFilter : clear implicits.
Arguments Envelopes : clear implicits.

(** ** Feature properties, as the loops build them *)

Section FeatureProperties.
Context {Num : Type}.

#[local] Abbreviation value := (value Num).

(** What the two loops of the callback leave under the name [k], for a hit
    without fields named [__proto__]: a computed field, a one-element array
    replaced by its element, before a source field; the geo field of the
    source never. *)
Definition expected_property (geoFieldName : string) (hit : Hit Num)
    (k : string) : option value :=
  match fields hit ≫= (fun m => m !! k) with
  | Some (VArr [element]) => Some element
  | Some val => Some val
  | None =>
      if bool_decide (k = geoFieldName) then None
      else _source hit ≫= (fun m => m !! k)
  end.

End FeatureProperties.

(** ** Geohash grid cells *)

Section GeohashGrid.
Context {Num : Type}.

#[local] Abbreviation value := (value Num).
#[local] Abbreviation result := (result Num).

(** A feature of a geohash grid, as far as the function reads it:
    [geohashGridFeature.properties.geohash_meta.rectangle], an array of
    corners, each an array of coordinates. *)
Record GeohashGridFeature : Type := {
  rectangle : list (list value)
}.

(** [esBbox[i][j]]. A corner that is not there is [undefined], and reading
    an element of it throws a TypeError; a coordinate that is not there is
    [undefined]. *)
Definition corner (esBbox : list (list value)) (i j : nat) : result value :=
  match esBbox !! i with
  | Some c => Ok (index j c)
  | None => Throw TypeError
  end.

(** [{ type: 'Polygon', coordinates: [ring] }] *)
Definition Polygon (ring : list value) : value :=
  VObj {[ "type" := VStr "Polygon"; "coordinates" := VArr [VArr ring] ]}.

Definition makeGeohashGridPolygon (geohashGridFeature : GeohashGridFeature)
    : result value :=
  let esBbox := rectangle geohashGridFeature in
  x0 <- corner esBbox 0 1;; y0 <- corner esBbox 0 0;;
  x1 <- corner esBbox 1 1;; y1 <- corner esBbox 1 0;;
  x2 <- corner esBbox 2 1;; y2 <- corner esBbox 2 0;;
  x3 <- corner esBbox 3 1;; y3 <- corner esBbox 3 0;;
  x4 <- corner esBbox 0 1;; y4 <- corner esBbox 0 0;;
  Ok (Polygon [ VArr [x0; y0]; VArr [x1; y1]; VArr [x2; y2]; VArr [x3; y3];
                VArr [x4; y4] ]).

(** A corner with its first two coordinates exchanged. *)
Definition swapped (c : list value) : value :=
  VArr [index 1 c; index 0 c].

End GeohashGrid.
Arguments GeohashGridFeature : clear implicits.

(** * The function of [axisConfig] *)

Section AxisConfig.
Context {Num : Type}.

#[local] Abbreviation value := (value Num).

(** [moment.utc(text).valueOf()]: the milliseconds of the date a text
    denotes, NaN when it denotes none. *)
Variable momentUtcValueOf : string -> Num.

(** The global [isNaN], which converts its argument to a number first. *)
Variable isNaN : value -> bool.

(** The errors of [functionErrors.axisConfig], which is not part of the
    sources, each with the value it is built from. *)
Inductive AxisConfigError : Type :=
| positionInvalid (position : value)
| minInvalid (min : value)
| maxInvalid (max : value).

Definition positions : list string := ["top"; "bottom"; "left"; "right"; ""].

(** [l.includes(v)] for an array of string literals *)
Definition includes (l : list string) (v : value) : bool :=
  existsb (fun s => is_str s v) l.

(** [args.k], for a name that no prototype defines *)
Definition arg (args : gmap string value) (k : string) : value :=
  default VUndefined (args !! k).

(** [typeof v === 'string' ? moment.utc(v).valueOf() : v] *)
Definition axisValue (v : value) : value :=
  match v with
  | VStr s => VNum (momentUtcValueOf s)
  | _ => v
  end.

(** [fn(context, args)]; the context is not used. *)
Definition axisConfig_fn (args : gmap string value)
    : AxisConfigError + value :=
  let position := arg args "position" in
  let min := arg args "min" in
  let max := arg args "max" in
  let rest := delete "position" (delete "min" (delete "max" args)) in
  if negb (includes positions position) then inl (positionInvalid position)
  else
    let minVal := axisValue (arg args "min") in
    let maxVal := axisValue (arg args "max") in
    if negb (is_nullish minVal) && isNaN minVal then inl (minInvalid min)
    else if negb (is_nullish maxVal) && isNaN maxVal then inl (maxInvalid max)
    else
      (* the properties of [rest] are spread last and win *)
      inr (VObj (rest ∪ {[ "min" := minVal; "max" := maxVal;
                           "type" := VStr "axisConfig";
                           "position" := position ]})).

(** The positions of the specification side: the argument is there and is
    one of the five texts. *)
Definition accepted_position (position : option value) : bool :=
  match position with
  | Some (VStr p) =>
      String.eqb p "top" || String.eqb p "bottom" || String.eqb p "left"
      || String.eqb p "right" || String.eqb p ""
  | _ => false
  end.

(** A bound of the specification side that passes the two checks: absent,
    [undefined] or null, or one that [isNaN] does not reject, a text being
    judged by the milliseconds of the date it denotes. *)
Definition acceptable (bound : option value) : bool :=
  match bound with
  | None | Some VUndefined | Some VNull => true
  | Some (VStr text) => negb (isNaN (VNum (momentUtcValueOf text)))
  | Some v => negb (isNaN v)
  end.

(** The bound of the result, on the specification side: a text is replaced
    by the milliseconds of its date, anything else is kept, and a bound that
    is absent is [undefined]. *)
Definition expected_bound (bound : option value) : value :=
  match bound with
  | Some (VStr text) => VNum (momentUtcValueOf text)
  | Some v => v
  | None => VUndefined
  end.

Definition returns {E A : Type} (r : E + A) : bool :=
  match r with
  | inr _ => true
  | inl _ => false
  end.

End AxisConfig.
Arguments AxisConfigError : clear implicits.

(** * Localized strings of element specifications *)

Section ElementStrings.
Context {Num : Type}.

#[local] Abbreviation value := (value Num).

(** An entry of the table [elementStrings], which is not part of the
    sources: the strings registered for an element, either of which may be
    missing. *)
Record ElementStrings : Type := {
  displayName : option string;
  help : option string
}.

(** What an element factory returns: an object with a text [name] and its
    other properties. *)
Record ElementSpec : Type := {
  name : string;
  others : gmap string value
}.

(** [if (s)] for a string that may be missing: the empty string is falsy. *)
Definition registered (s : option string) : option string :=
  match s with
  | Some "" => None
  | _ => s
  end.

(** [result.k = s] when [s] is registered, nothing otherwise. *)
Definition replace (k : string) (s : option string) (result : ElementSpec)
    : ElementSpec :=
  match registered s with
  | Some s' => {| name := name result; others := <[k := VStr s']> (others result) |}
  | None => result
  end.

(** The callback of [elements.map(...)], on the specification that the
    factory returns; the new factory returns the result. *)
Definition applyElementString (elementStrings : gmap string ElementStrings)
    (spec : ElementSpec) : ElementSpec :=
  let result := spec in
  match elementStrings !! name result with
  | Some strings =>
      (* If we have registered strings for this spec, we should replace any
         that are available. *)
      let result := replace "help" (help strings) result in
      replace "displayName" (displayName strings) result
  | None => result
  end.

Definition applyElementStrings (elementStrings : gmap string ElementStrings)
    (elements : list ElementSpec) : list ElementSpec :=
  applyElementString elementStrings <$> elements.

(** The string that replaces the [help] or the [displayName] of an element,
    on the specification side: the one the table holds for the name of the
    element, unless the table has no entry for the name, the entry has no
    such string, or the string is empty. *)
Definition registered_for (elementStrings : gmap string ElementStrings)
    (field : ElementStrings -> option string) (spec : ElementSpec)
    : option string :=
  match elementStrings !! name spec with
  | Some strings =>
      match field strings with
      | Some text => if bool_decide (text = "") then None else Some text
      | None => None
      end
  | None => None
  end.

End ElementStrings.
Arguments ElementSpec : clear implicits.

(** * Properties *)

(** ** Values *)

Section ValueFacts.
Context {Num : Type}.

Lemma sum_list_elem (x : nat) (l : list nat) : x ∈ l -> x <= sum_list l.
Proof.
  induction 1 as [x l|x y l _ IH]; simpl; lia.
Qed.

(** Induction on values that reaches the elements of arrays and the
    properties of objects. *)
Lemma value_ind_deep (P : value Num -> Prop) :
  P VUndefined -> P VNull -> (forall b, P (VBool b)) ->
  (forall n, P (VNum n)) -> (forall s, P (VStr s)) ->
  (forall l, Forall P l -> P (VArr l)) ->
  (forall m, map_Forall (fun _ => P) m -> P (VObj m)) ->
  forall v, P v.
Proof.
  intros Hu Hn Hb Hnum Hs Ha Ho v.
  remember (value_size v) as k eqn:Hk.
  revert v Hk.
  induction k as [k IH] using lt_wf_ind.
  intros [| | b | n | s | l | m] Hk; auto.
  - apply Ha, Forall_forall. intros x Hx.
    apply (IH (value_size x)); [|done].
    subst k. simpl.
    assert (value_size x <= sum_list (value_size <$> l)); [|lia].
    apply sum_list_elem, list_elem_of_fmap. eauto.
  - apply Ho. intros i x Hix.
    apply (IH (value_size x)); [|done].
    subst k. simpl.
    assert (value_size x <= sum_list ((map_to_list (value_size <$> m)).*2)); [|lia].
    apply sum_list_elem, list_elem_of_fmap.
    exists (i, value_size x). split; [done|].
    apply elem_of_map_to_list. rewrite lookup_fmap, Hix. done.
Qed.

(** The deep copy of a value is the value: nothing in this model can tell
    the copy from the original. *)
Lemma cloneDeep_id (v : value Num) : cloneDeep v = v.
Proof.
  induction v as [| | b | n | s | l IH | m IH] using value_ind_deep;
    simpl; try done.
  - f_equal. induction IH as [|x l Hx _ IHl]; [done|].
    rewrite fmap_cons. by f_equal.
  - f_equal. apply map_eq. intros i. rewrite lookup_fmap.
    destruct (m !! i) as [x|] eqn:Hix; simpl; [|done].
    f_equal. by apply (IH i).
Qed.

Lemma split_not_nil (c : ascii) (s : string) : split c s <> [].
Proof.
  destruct s as [|a s]; simpl; [done|].
  destruct (Ascii.eqb a c); [done|].
  destruct (split c s); done.
Qed.

(** Without the separator, the text is the only segment. *)
Lemma split_absent (c : ascii) (s : string) :
  occurs c s = false -> split c s = [s].
Proof.
  induction s as [|a s IH]; simpl; [done|].
  destruct (Ascii.eqb a c); simpl; [done|].
  intros Hs. by rewrite (IH Hs).
Qed.

(** With the separator, there are at least two segments. *)
Lemma split_present (c : ascii) (s : string) :
  occurs c s = true -> exists s1 s2 rest, split c s = s1 :: s2 :: rest.
Proof.
  induction s as [|a s IH]; simpl; [done|].
  destruct (Ascii.eqb a c); simpl.
  - intros _. destruct (split c s) as [|s2 rest] eqn:Hs.
    + by apply split_not_nil in Hs.
    + by exists EmptyString, s2, rest.
  - intros Hs. destruct (IH Hs) as (s1 & s2 & rest & ->).
    by exists (String a s1), s2, rest.
Qed.

Lemma split_length_1 (c : ascii) (s : string) :
  (length (split c s) =? 1)%nat = negb (occurs c s).
Proof.
  destruct (occurs c s) eqn:Hs.
  - by destruct (split_present c s Hs) as (s1 & s2 & rest & ->).
  - by rewrite (split_absent c s Hs).
Qed.

(** The segments of [s1 ++ c ++ s2], for [s1] without the separator. *)
Lemma split_app (c : ascii) (s1 s2 : string) :
  occurs c s1 = false ->
  split c (s1 +:+ String c s2) = s1 :: split c s2.
Proof.
  induction s1 as [|a s1 IH]; simpl.
  - intros _. by rewrite Ascii.eqb_refl.
  - destruct (Ascii.eqb a c); simpl; [done|].
    intros Hs. by rewrite (IH Hs).
Qed.
End ValueFacts.

(** ** [geoPointToGeometry] *)

Section PointFacts.
Context {Num : Type} (parseFloat : string -> Num).

(** C6. The text "lat,lon", the array [lon, lat] and the object
    { lat, lon } of the same two numbers are all converted to the same
    result, the record { type: 'Point', coordinates: [lon, lat] }, longitude
    first. The text is any comma-separated pair of texts that [parseFloat]
    reads as [lat] and as [lon]. *)
Theorem C6_geoPointToGeometry_encodings_agree
    (lat lon : Num) (latText lonText : string) :
  occurs "," latText = false ->
  occurs "," lonText = false ->
  parseFloat latText = lat ->
  parseFloat lonText = lon ->
  let point :=
    Ok (VObj {[ "type" := VStr "Point";
                "coordinates" := VArr [VNum lon; VNum lat] ]}) in
  geoPointToGeometry parseFloat (VStr (latText +:+ "," +:+ lonText)) = point /\
  geoPointToGeometry parseFloat (VArr [VNum lon; VNum lat]) = point /\
  geoPointToGeometry parseFloat
    (VObj {[ "lat" := VNum lat; "lon" := VNum lon ]}) = point.
Proof.
  intros Hlat Hlon <- <-. cbv zeta. split; [|split].
  - unfold geoPointToGeometry; cbv zeta.
    rewrite split_length_1.
    change (latText +:+ "," +:+ lonText)
      with (latText +:+ String "," lonText).
    assert (occurs "," (latText +:+ String "," lonText) = true) as ->.
    { clear. induction latText as [|a s IH]; simpl; [done|].
      rewrite IH. by destruct (Ascii.eqb a ","). }
    simpl negb. cbv iota.
    rewrite (split_app _ _ _ Hlat), (split_absent _ _ Hlon). done.
  - done.
  - unfold geoPointToGeometry, prop, bind.
    by rewrite !lookup_insert_ne, !lookup_insert_eq by done.
Qed.

End PointFacts.

(** The text "41,-71", the array [-71, 41] and the object { lat: 41,
    lon: -71 } give the same point. *)
Lemma C6_witness :
  let point :=
    Ok (VObj {[ "type" := VStr "Point";
                "coordinates" := VArr [VNum (Exact.lit (-71));
                                       VNum (Exact.lit 41)] ]}) in
  geoPointToGeometry Exact.parseInteger (VStr "41,-71") = point /\
  geoPointToGeometry Exact.parseInteger
    (VArr [VNum (Exact.lit (-71)); VNum (Exact.lit 41)]) = point /\
  geoPointToGeometry Exact.parseInteger
    (VObj {[ "lat" := VNum (Exact.lit 41); "lon" := VNum (Exact.lit (-71)) ]})
    = point.
Proof.
  apply (C6_geoPointToGeometry_encodings_agree Exact.parseInteger
           (Exact.lit 41) (Exact.lit (-71)) "41" "-71");
    reflexivity.
Defined.

(** ** [geoShapeToGeometry] *)

Section ShapeFacts.
Context {Num : Type}.

(** The [switch] agrees with the table of the specification. *)
Lemma geoJsonType_spec (t : value Num) :
  match geoJsonType t with
  | Some t' =>
      spec_translate t = VStr t' /\
      is_str "envelope" (VStr t' : value Num) = false /\
      is_str "circle" (VStr t' : value Num) = false /\
      is_str "envelope" t = false /\ is_str "circle" t = false
  | None => spec_translate t = t
  end.
Proof.
  destruct t as [| | b | n | s | l | m]; try done.
  unfold geoJsonType, spec_translate, is_str; simpl.
  repeat (destruct (String.eqb s _) eqn:E;
          [apply String.eqb_eq in E; subst s; done|clear E]).
  done.
Qed.

(** C8, as the code has it. The conversion of a shape throws exactly on a
    text, on [null] and [undefined] (a TypeError, on reading [type]), and on
    an object whose type tag is 'envelope' or 'circle'. On every other
    object it returns the object with its type tag rewritten through the
    six-entry table, a tag outside the table unchanged, and every other
    property as in the input; numbers, booleans and arrays are returned as
    they are. *)
Theorem C8_geoShapeToGeometry_throws_or_retags (v : value Num) :
  throws (geoShapeToGeometry v)
    = is_string v || is_nullish v || is_envelope_or_circle v /\
  match v with
  | VStr _ => geoShapeToGeometry v = Throw WktNotSupported
  | VUndefined | VNull => geoShapeToGeometry v = Throw TypeError
  | VObj m =>
      if is_envelope_or_circle v
      then geoShapeToGeometry v = Throw (GeometryNotSupported (tag v))
      else exists m',
          geoShapeToGeometry v = Ok (VObj m') /\
          m' !! "type" = spec_translate <$> (m !! "type") /\
          forall k, k <> "type" -> m' !! k = m !! k
  | _ => geoShapeToGeometry v = Ok v
  end.
Proof.
  unfold geoShapeToGeometry. rewrite cloneDeep_id.
  destruct v as [| | b | n | s | l | m]; try done.
  unfold is_envelope_or_circle, tag. simpl.
  pose proof (geoJsonType_spec (default VUndefined (m !! "type"))) as Ht.
  destruct (geoJsonType (default VUndefined (m !! "type"))) as [t'|] eqn:Hty.
  - destruct Ht as (Htr & He' & Hc' & He & Hc).
    simpl. rewrite lookup_insert_eq. simpl.
    rewrite He, Hc. simpl in *. rewrite He', Hc'. simpl.
    split; [done|]. eexists; split; [done|]. split.
    + rewrite lookup_insert_eq.
      destruct (m !! "type") as [t|]; simpl in *; [by rewrite Htr|done].
    + intros k Hk. by rewrite lookup_insert_ne.
  - simpl.
    destruct (is_str "envelope" (default VUndefined (m !! "type"))
              || is_str "circle" (default VUndefined (m !! "type"))) eqn:Hec.
    + done.
    + split; [done|]. eexists; split; [done|]. split; [|done].
      destruct (m !! "type") as [t|]; simpl in *; [by rewrite Ht|done].
Qed.
End ShapeFacts.

(** C8, as stated, fails on [null]: the conversion throws although [null] is
    neither a text nor an object tagged 'envelope' or 'circle'. *)
Lemma C8_counterexample_null :
  throws (geoShapeToGeometry (VNull : value Exact.num)) = true /\
  is_string (VNull : value Exact.num)
    || is_envelope_or_circle (VNull : value Exact.num) = false.
Proof. split; reflexivity. Qed.

(** ** Numbers *)

Module ExactFacts.
Import Exact.

Lemma lt_Fin (x y : Q) : lt (Fin x) (Fin y) = true <-> (x < y)%Q.
Proof.
  unfold lt, Qlt_bool. rewrite negb_true_iff.
  split.
  - intros Hle. apply Qnot_le_lt. intros Hyx.
    apply Qle_bool_iff in Hyx. congruence.
  - intros Hlt. destruct (Qle_bool y x) eqn:Hle; [|done].
    apply Qle_bool_iff in Hle. exfalso. lra.
Qed.

Lemma lt_Fin_false (x y : Q) : lt (Fin x) (Fin y) = false <-> (y <= x)%Q.
Proof.
  unfold lt, Qlt_bool. rewrite negb_false_iff. apply Qle_bool_iff.
Qed.

Lemma le_Fin (x y : Q) : le (Fin x) (Fin y) = true <-> (x <= y)%Q.
Proof. apply Qle_bool_iff. Qed.

Lemma le_inv (a b : num) :
  le a b = true -> exists x y, a = Fin x /\ b = Fin y /\ (x <= y)%Q.
Proof.
  destruct a as [|x], b as [|y]; try done.
  intros Hle. exists x, y. by rewrite <- le_Fin.
Qed.

Lemma lt_inv (a b : num) :
  lt a b = true -> exists x y, a = Fin x /\ b = Fin y /\ (x < y)%Q.
Proof.
  destruct a as [|x], b as [|y]; try done.
  intros Hlt. exists x, y. by rewrite <- lt_Fin.
Qed.

#[global] Instance exact_order : JsOrder num.
Proof.
  split. intros a b Hle. simpl in *.
  destruct (le_inv _ _ Hle) as (x & y & -> & -> & Hxy).
  by apply lt_Fin_false.
Qed.
End ExactFacts.

Module Binary64Facts.
Import Binary64.

Lemma SFcompare_Lt_Gt (x y : spec_float) :
  SFcompare x y = Some Lt -> SFcompare y x = Some Gt.
Proof.
  destruct x as [sx| sx | | sx mx ex], y as [sy | sy | | sy my ey]; simpl;
    try done;
    try (destruct sx; done); try (destruct sy; done);
    try (destruct sx, sy; done).
  assert (Pos.compare_cont Eq mx my = CompOpp (Pos.compare_cont Eq my mx))
    as Hm by (by rewrite Pos.compare_cont_antisym).
  rewrite (Z.compare_antisym ey ex), Hm.
  destruct sx, sy; try done;
    destruct (ey ?= ex)%Z; simpl; try done;
    by destruct (Pos.compare_cont Eq my mx).
Qed.

#[global] Instance binary64_order : JsOrder float.
Proof.
  split. intros a b. simpl.
  rewrite leb_spec, ltb_spec. unfold SFleb, SFltb.
  destruct (SFcompare (Prim2SF b) (Prim2SF a)) as [[]|] eqn:Hba; try done.
  by rewrite (SFcompare_Lt_Gt _ _ Hba).
Qed.
End Binary64Facts.

(** ** [convertMapExtentToEnvelope] *)

Section ConvertFacts.
Context {Num : Type} `{JsNumber Num}.

(** The base case: neither bound is beyond the date line. *)
Lemma convert_base (fuel : nat) (e : MapExtent Num) :
  (maxLon e >? num_lit 180)%js = false ->
  (minLon e <? num_lit (-180))%js = false ->
  convertMapExtentToEnvelope (S fuel) e
  = Some (One {| type := "envelope";
                 coordinates := [ [minLon e; maxLat e];
                                  [maxLon e; minLat e] ] |}).
Proof. intros Hmax Hmin. simpl. by rewrite Hmax, Hmin. Qed.

(** The eastern bound is beyond 180 and the western one is not beyond
    -180. *)
Lemma convert_east (fuel : nat) (e : MapExtent Num) :
  (maxLon e >? num_lit 180)%js = true ->
  (minLon e <? num_lit (-180))%js = false ->
  convertMapExtentToEnvelope (S fuel) e
  = (a ← convertMapExtentToEnvelope fuel
           {| maxLat := maxLat e; maxLon := num_lit 180;
              minLat := minLat e; minLon := minLon e |};
     b ← convertMapExtentToEnvelope fuel
           {| maxLat := maxLat e;
              maxLon := (num_lit (-180) + (maxLon e - num_lit 180))%js;
              minLat := minLat e; minLon := num_lit (-180) |};
     Some (Two a b)).
Proof. intros Hmax Hmin. simpl. by rewrite Hmax, Hmin. Qed.

(** The western bound is beyond -180 and the eastern one is not beyond
    180. *)
Lemma convert_west (fuel : nat) (e : MapExtent Num) :
  (maxLon e >? num_lit 180)%js = false ->
  (minLon e <? num_lit (-180))%js = true ->
  convertMapExtentToEnvelope (S fuel) e
  = (a ← convertMapExtentToEnvelope fuel
           {| maxLat := maxLat e; maxLon := num_lit 180;
              minLat := minLat e;
              minLon := (num_lit 180 - (num_abs (minLon e) - num_lit 180))%js |};
     b ← convertMapExtentToEnvelope fuel
           {| maxLat := maxLat e; maxLon := maxLon e;
              minLat := minLat e; minLon := num_lit (-180) |};
     Some (Two a b)).
Proof. intros Hmax Hmin. simpl. by rewrite Hmax, Hmin. Qed.

(** Both bounds are beyond the date line. *)
Lemma convert_both (fuel : nat) (e : MapExtent Num) :
  (maxLon e >? num_lit 180)%js = true ->
  (minLon e <? num_lit (-180))%js = true ->
  convertMapExtentToEnvelope (S fuel) e
  = convertMapExtentToEnvelope fuel
      {| maxLat := maxLat e; maxLon := num_lit 180;
         minLat := minLat e; minLon := num_lit (-180) |}.
Proof. intros Hmax Hmin. simpl. by rewrite Hmax, Hmin. Qed.

(** A call that returned within some fuel returns the same with more. *)
Lemma convert_fuel_S (fuel : nat) :
  forall (e : MapExtent Num) (r : Envelopes Num),
    convertMapExtentToEnvelope fuel e = Some r ->
    convertMapExtentToEnvelope (S fuel) e = Some r.
Proof.
  induction fuel as [|fuel IH]; intros e r; [done|].
  destruct (maxLon e >? num_lit 180)%js eqn:Hmax,
           (minLon e <? num_lit (-180))%js eqn:Hmin.
  - rewrite (convert_both (S fuel)), (convert_both fuel) by done. apply IH.
  - rewrite (convert_east (S fuel)), (convert_east fuel) by done.
    intros Hr. apply bind_Some in Hr as (a & Ha & Hr).
    apply bind_Some in Hr as (b & Hb & Hr).
    by rewrite (IH _ _ Ha), (IH _ _ Hb).
  - rewrite (convert_west (S fuel)), (convert_west fuel) by done.
    intros Hr. apply bind_Some in Hr as (a & Ha & Hr).
    apply bind_Some in Hr as (b & Hb & Hr).
    by rewrite (IH _ _ Ha), (IH _ _ Hb).
  - by rewrite (convert_base (S fuel)), (convert_base fuel).
Qed.

Lemma convert_fuel_le (fuel fuel' : nat) (e : MapExtent Num) (r : Envelopes Num) :
  fuel <= fuel' ->
  convertMapExtentToEnvelope fuel e = Some r ->
  convertMapExtentToEnvelope fuel' e = Some r.
Proof.
  induction 1 as [|fuel' _ IH]; [done|].
  intros Hr. by apply convert_fuel_S, IH.
Qed.

(** C3. An extent with [minLon >= -180] and [maxLon <= 180] is converted to
    one envelope record, not an array, with the type tag "envelope" and the
    coordinates [[minLon, maxLat], [maxLon, minLat]]; the latitudes are
    those of the extent, whatever they are. *)
Theorem C3_convertMapExtentToEnvelope_no_crossing `{!JsOrder Num}
    (fuel : nat) (e : MapExtent Num) :
  (num_lit (-180) <=? minLon e)%js = true ->
  (maxLon e <=? num_lit 180)%js = true ->
  convertMapExtentToEnvelope (S fuel) e
  = Some (One {| type := "envelope";
                 coordinates := [ [minLon e; maxLat e];
                                  [maxLon e; minLat e] ] |}).
Proof.
  intros Hmin Hmax. apply convert_base; by apply le_not_gt.
Qed.
End ConvertFacts.

(** The extent of the specification, in exact arithmetic and in binary64:
    [{maxLat: 10, maxLon: 170, minLat: -10, minLon: -170}] gives the single
    envelope [[-170, 10], [170, -10]]. *)
Lemma C3_witness :
  convertMapExtentToEnvelope 1
    {| maxLat := Exact.lit 10; maxLon := Exact.lit 170;
       minLat := Exact.lit (-10); minLon := Exact.lit (-170) |}
  = Some (One {| type := "envelope";
                 coordinates := [ [Exact.lit (-170); Exact.lit 10];
                                  [Exact.lit 170; Exact.lit (-10)] ] |}) /\
  convertMapExtentToEnvelope 1
    {| maxLat := 10%float; maxLon := 170%float;
       minLat := (-10)%float; minLon := (-170)%float |}
  = Some (One {| type := "envelope";
                 coordinates := [ [(-170)%float; 10%float];
                                  [170%float; (-10)%float] ] |}).
Proof.
  split.
  - apply (C3_convertMapExtentToEnvelope_no_crossing
             (JsOrder0 := ExactFacts.exact_order) 0
             {| maxLat := Exact.lit 10; maxLon := Exact.lit 170;
                minLat := Exact.lit (-10); minLon := Exact.lit (-170) |});
      reflexivity.
  - apply (C3_convertMapExtentToEnvelope_no_crossing
             (JsOrder0 := Binary64Facts.binary64_order) 0
             {| maxLat := 10%float; maxLon := 170%float;
                minLat := (-10)%float; minLon := (-170)%float |});
      reflexivity.
Defined.

Section ExactConvert.
Import Exact ExactFacts.

(** C2. An extent with [minLon] in [-180, 180] and [maxLon] in (180, 540]
    is converted to an array of two single envelopes: the first from
    [minLon] to 180, the second from -180 to [-180 + (maxLon - 180)], which
    is [maxLon - 360]. *)
Theorem C2_convertMapExtentToEnvelope_east_crossing
    (fuel : nat) (e : MapExtent num) :
  within (-180) 180 (minLon e) = true ->
  (maxLon e >? num_lit 180)%js = true ->
  (maxLon e <=? num_lit 540)%js = true ->
  convertMapExtentToEnvelope (S (S fuel)) e
  = Some (Two
      (One {| type := "envelope";
              coordinates := [ [minLon e; maxLat e];
                               [num_lit 180; minLat e] ] |})
      (One {| type := "envelope";
              coordinates :=
                [ [num_lit (-180); maxLat e];
                  [(num_lit (-180) + (maxLon e - num_lit 180))%js;
                   minLat e] ] |})) /\
  eqb (num_lit (-180) + (maxLon e - num_lit 180))%js
      (maxLon e - num_lit 360)%js = true.
Proof.
  unfold within. rewrite andb_true_iff. intros [Hlo Hhi] Hgt Hle.
  pose proof (le_not_gt _ _ Hlo) as Hmin.
  destruct (lt_inv _ _ Hgt) as (c & b & Hc & Hb & Hcb).
  destruct (le_inv _ _ Hle) as (b' & d & Hb' & Hd & Hbd).
  rewrite Hb in Hb'. injection Hb' as <-.
  injection Hc as <-. injection Hd as <-.
  split.
  - rewrite convert_east by done.
    rewrite (convert_base fuel
               {| maxLat := maxLat e; maxLon := num_lit 180;
                  minLat := minLat e; minLon := minLon e |}) by done.
    rewrite (convert_base fuel
               {| maxLat := maxLat e;
                  maxLon := (num_lit (-180) + (maxLon e - num_lit 180))%js;
                  minLat := minLat e; minLon := num_lit (-180) |});
      [done| |done].
    simpl. rewrite Hb. simpl. apply lt_Fin_false.
    change (inject_Z 180) with 180%Q in *.
    change (inject_Z 540) with 540%Q in *.
    change (inject_Z (-180)) with (-180)%Q. lra.
  - rewrite Hb. simpl. apply Qeq_bool_iff.
    change (inject_Z 180) with 180%Q.
    change (inject_Z 360) with 360%Q.
    change (inject_Z (-180)) with (-180)%Q. lra.
Qed.
End ExactConvert.

(** The extent of the specification:
    [{maxLat: 10, maxLon: 190, minLat: -10, minLon: 170}] gives the two
    envelopes [[170, 10], [180, -10]] and [[-180, 10], [-170, -10]]. *)
Lemma C2_witness :
  convertMapExtentToEnvelope 2
    {| maxLat := Exact.lit 10; maxLon := Exact.lit 190;
       minLat := Exact.lit (-10); minLon := Exact.lit 170 |}
  = Some (Two
      (One {| type := "envelope";
              coordinates := [ [Exact.lit 170; Exact.lit 10];
                               [Exact.lit 180; Exact.lit (-10)] ] |})
      (One {| type := "envelope";
              coordinates := [ [Exact.lit (-180); Exact.lit 10];
                               [Exact.lit (-170); Exact.lit (-10)] ] |})).
Proof.
  apply (C2_convertMapExtentToEnvelope_east_crossing 0
           {| maxLat := Exact.lit 10; maxLon := Exact.lit 190;
              minLat := Exact.lit (-10); minLon := Exact.lit 170 |});
    reflexivity.
Defined.

(** C4, evaluated. An extent that lies east of 180 altogether,
    [{maxLat: 10, maxLon: 300, minLat: -10, minLon: 200}], is split as if it
    crossed the date line: the first envelope runs from longitude 200 "to"
    180, and 200 is outside [-180, 180]. Exact arithmetic and binary64
    agree. *)
Theorem C4_convertMapExtentToEnvelope_east_of_180 :
  (convertMapExtentToEnvelope 2
     {| maxLat := Exact.lit 10; maxLon := Exact.lit 300;
        minLat := Exact.lit (-10); minLon := Exact.lit 200 |}
   = Some (Two
       (One {| type := "envelope";
               coordinates := [ [Exact.lit 200; Exact.lit 10];
                                [Exact.lit 180; Exact.lit (-10)] ] |})
       (One {| type := "envelope";
               coordinates := [ [Exact.lit (-180); Exact.lit 10];
                                [Exact.lit (-60); Exact.lit (-10)] ] |})) /\
   within (-180) 180 (Exact.lit 200) = false) /\
  (convertMapExtentToEnvelope 2
     {| maxLat := 10%float; maxLon := 300%float;
        minLat := (-10)%float; minLon := 200%float |}
   = Some (Two
       (One {| type := "envelope";
               coordinates := [ [200%float; 10%float];
                                [180%float; (-10)%float] ] |})
       (One {| type := "envelope";
               coordinates := [ [(-180)%float; 10%float];
                                [(-60)%float; (-10)%float] ] |})) /\
   within (-180) 180 200%float = false).
Proof. repeat split; reflexivity. Qed.

Section Binary64Convert.
Import Binary64.

(** In binary64, 180 is less than half the distance between 1e20 and its
    neighbours: subtracting 180 from 1e20, or adding the result to -180,
    returns 1e20. *)
Lemma absorbed :
  (num_lit (-180) + (1e20%float - num_lit 180))%js = 1e20%float.
Proof. reflexivity. Qed.

(** The second half of the split of an extent that reaches 1e20 east is an
    extent that reaches 1e20 east: no amount of fuel is enough. *)
Lemma convert_1e20_from_minus_180 (north south : float) (fuel : nat) :
  convertMapExtentToEnvelope fuel
    {| maxLat := north; maxLon := 1e20%float;
       minLat := south; minLon := num_lit (-180) |} = None.
Proof.
  induction fuel as [|fuel IH]; [done|].
  rewrite convert_east by done.
  cbn [maxLon maxLat minLat minLon].
  rewrite absorbed, IH.
  match goal with |- ?a ≫= _ = None => destruct a; reflexivity end.
Qed.

(** C5, evaluated in binary64. The bounds of
    [{maxLat: 10, maxLon: 1e20, minLat: -10, minLon: 0}] are finite numbers,
    and the call does not return, whatever the depth allowed: the eastern
    overflow is remapped to the same bound again and again. *)
Theorem C5_convertMapExtentToEnvelope_1e20_diverges (fuel : nat) :
  PrimFloat.is_finite 1e20%float = true /\
  convertMapExtentToEnvelope fuel
    {| maxLat := 10%float; maxLon := 1e20%float;
       minLat := (-10)%float; minLon := 0%float |} = None.
Proof.
  split; [reflexivity|].
  destruct fuel as [|fuel]; [done|].
  rewrite convert_east by done.
  cbn [maxLon maxLat minLat minLon].
  rewrite absorbed, convert_1e20_from_minus_180.
  match goal with |- ?a ≫= _ = None => destruct a; reflexivity end.
Qed.
End Binary64Convert.

(** ** [createExtentFilter] *)

(** C1, evaluated. For the extent
    [{maxLat: 10, maxLon: 300, minLat: -10, minLon: 200}], east of 180
    altogether, [minLon] is only compared with -180 and goes into the filter
    as it is: the bounding box and the envelope carry the longitude 200,
    outside [-180, 180]. Exact arithmetic and binary64 agree. *)
Theorem C1_createExtentFilter_east_of_180 :
  (createExtentFilter
     {| maxLat := Exact.lit 10; maxLon := Exact.lit 300;
        minLat := Exact.lit (-10); minLon := Exact.lit 200 |}
     "location" (VStr "geo_point")
   = Ok (geo_bounding_box "location"
           {| lat := Exact.lit 10; lon := Exact.lit 200 |}
           {| lat := Exact.lit (-10); lon := Exact.lit 180 |}) /\
   createExtentFilter
     {| maxLat := Exact.lit 10; maxLon := Exact.lit 300;
        minLat := Exact.lit (-10); minLon := Exact.lit 200 |}
     "location" (VStr "geo_shape")
   = Ok (geo_shape "location"
           {| type := "envelope";
              coordinates := [ [Exact.lit 200; Exact.lit 10];
                               [Exact.lit 180; Exact.lit (-10)] ] |}
           "INTERSECTS") /\
   within (-180) 180 (Exact.lit 200) = false) /\
  (createExtentFilter
     {| maxLat := 10%float; maxLon := 300%float;
        minLat := (-10)%float; minLon := 200%float |}
     "location" (VStr "geo_point")
   = Ok (geo_bounding_box "location"
           {| lat := 10%float; lon := 200%float |}
           {| lat := (-10)%float; lon := 180%float |}) /\
   within (-180) 180 200%float = false).
Proof. repeat split; reflexivity. Qed.

Section ExactFilter.
Import Exact ExactFacts.

(** One bound, clamped from below: the result is not below [lo], and it is
    in [lo, hi] when the bound was not above [hi]. *)
Lemma clamp_below (lo hi : Z) (a : num) :
  (lo <= hi)%Z ->
  (a <=? num_lit hi)%js = true ->
  within lo hi (if (a <? num_lit lo)%js then num_lit lo else a) = true.
Proof.
  intros Hlohi Hhi.
  destruct (le_inv _ _ Hhi) as (x & h & -> & Hh & Hxh).
  injection Hh as <-.
  unfold within. apply andb_true_iff.
  destruct (Fin x <? num_lit lo)%js eqn:Hlt; simpl in *.
  - split; apply Qle_bool_iff; [lra|]. by rewrite <- Zle_Qle.
  - apply lt_Fin_false in Hlt. split; by apply Qle_bool_iff.
Qed.

(** One bound, clamped from above. *)
Lemma clamp_above (lo hi : Z) (a : num) :
  (lo <= hi)%Z ->
  (num_lit lo <=? a)%js = true ->
  within lo hi (if (a >? num_lit hi)%js then num_lit hi else a) = true.
Proof.
  intros Hlohi Hlo.
  destruct (le_inv _ _ Hlo) as (l & x & Hl & -> & Hlx).
  injection Hl as <-.
  unfold within. apply andb_true_iff.
  destruct (Fin x >? num_lit hi)%js eqn:Hlt; simpl in *.
  - split; apply Qle_bool_iff; [|lra]. by rewrite <- Zle_Qle.
  - apply lt_Fin_false in Hlt. split; by apply Qle_bool_iff.
Qed.

(** X7. What the clamping does achieve: when the western and southern
    bounds are not beyond 180 and 90, and the eastern and northern ones not
    beyond -180 and -90, every coordinate of the filter is in range. *)
Lemma createExtentFilter_in_range (e : MapExtent num) (geoFieldName : string)
    (geoFieldType : value num) (f : ExtentFilter num) :
  (minLon e <=? num_lit 180)%js = true ->
  (num_lit (-180) <=? maxLon e)%js = true ->
  (minLat e <=? num_lit 90)%js = true ->
  (num_lit (-90) <=? maxLat e)%js = true ->
  createExtentFilter e geoFieldName geoFieldType = Ok f ->
  Forall (fun n => within (-180) 180 n = true) (filter_lons f) /\
  Forall (fun n => within (-90) 90 n = true) (filter_lats f).
Proof.
  intros Hw He Hs Hn.
  pose proof (clamp_below (-180) 180 _ ltac:(lia) Hw) as Hw'.
  pose proof (clamp_above (-180) 180 _ ltac:(lia) He) as He'.
  pose proof (clamp_below (-90) 90 _ ltac:(lia) Hs) as Hs'.
  pose proof (clamp_above (-90) 90 _ ltac:(lia) Hn) as Hn'.
  unfold createExtentFilter.
  destruct (is_str "geo_point" geoFieldType);
    [|destruct (is_str "geo_shape" geoFieldType); [|done]];
    intros [= <-]; split; repeat constructor; assumption.
Qed.
End ExactFilter.

(** ** [convertMapExtentToEnvelope] in exact arithmetic *)

Section ExactRecursion.
Import Exact ExactFacts.

Lemma lit_Q (z : Z) : num_lit z = Fin (inject_Z z).
Proof. reflexivity. Qed.

(** Each recursive call on an overflowing half brings the overflow 360
    closer: an extent within [k] turns of the range returns within depth
    [k + 2]. *)
Lemma convert_exact_returns (k : nat) :
  forall e : MapExtent num,
    (maxLon e >? num_lit (180 + 360 * Z.of_nat k))%js = false ->
    (minLon e <? num_lit (-180 - 360 * Z.of_nat k))%js = false ->
    exists r, convertMapExtentToEnvelope (S (S k)) e = Some r.
Proof.
  induction k as [|k IH]; intros e Hmax Hmin.
  - simpl in Hmax, Hmin. rewrite convert_base by done. eauto.
  - destruct (maxLon e >? num_lit 180)%js eqn:Hgt,
             (minLon e <? num_lit (-180))%js eqn:Hlt.
    + rewrite convert_both by done.
      rewrite convert_base by done. eauto.
    + rewrite convert_east by done.
      rewrite (convert_base (S k)
                 {| maxLat := maxLat e; maxLon := num_lit 180;
                    minLat := minLat e; minLon := minLon e |})
        by done.
      destruct (lt_inv _ _ Hgt) as (c & x & _ & Hx & _).
      destruct (IH {| maxLat := maxLat e;
                      maxLon := (num_lit (-180) + (maxLon e - num_lit 180))%js;
                      minLat := minLat e;
                      minLon := num_lit (-180) |}) as [r Hr].
      * cbn [maxLon]. rewrite Hx in *. rewrite !lit_Q in *.
        apply lt_Fin_false in Hmax. apply lt_Fin_false.
        rewrite Nat2Z.inj_succ in Hmax.
        rewrite inject_Z_plus, inject_Z_mult in *.
        unfold Z.succ in Hmax. rewrite inject_Z_plus in Hmax.
        change (inject_Z 180) with 180%Q in *.
        change (inject_Z 360) with 360%Q in *.
        change (inject_Z 1) with 1%Q in *.
        change (inject_Z (-180)) with (-180)%Q. lra.
      * cbn [minLon]. rewrite !lit_Q. apply lt_Fin_false.
        unfold Z.sub. rewrite inject_Z_plus, inject_Z_opp, inject_Z_mult.
        change (inject_Z 360) with 360%Q.
        change (inject_Z (-180)) with (-180)%Q.
        assert (0 <= inject_Z (Z.of_nat k))%Q
          by (rewrite <- (Zle_Qle 0); lia).
        nra.
      * rewrite Hr. eauto.
    + rewrite convert_west by done.
      rewrite (convert_base (S k)
                 {| maxLat := maxLat e; maxLon := maxLon e;
                    minLat := minLat e; minLon := num_lit (-180) |})
        by done.
      destruct (lt_inv _ _ Hlt) as (x & c & Hx & _ & Hxc).
      destruct (IH {| maxLat := maxLat e; maxLon := num_lit 180;
                      minLat := minLat e;
                      minLon := (num_lit 180
                                 - (num_abs (minLon e) - num_lit 180))%js |})
        as [r Hr].
      * cbn [maxLon]. rewrite !lit_Q. apply lt_Fin_false.
        rewrite inject_Z_plus, inject_Z_mult.
        change (inject_Z 360) with 360%Q.
        change (inject_Z 180) with 180%Q.
        assert (0 <= inject_Z (Z.of_nat k))%Q
          by (rewrite <- (Zle_Qle 0); lia).
        nra.
      * cbn [minLon]. rewrite Hx in *. rewrite !lit_Q in *.
        apply lt_Fin_false in Hmin. simpl. apply lt_Fin_false.
        rewrite Nat2Z.inj_succ in Hmin. unfold Z.succ, Z.sub in *.
        rewrite ?inject_Z_plus, ?inject_Z_opp, ?inject_Z_mult,
          ?inject_Z_plus in *.
        change (inject_Z 360) with 360%Q in *.
        change (inject_Z 180) with 180%Q in *.
        change (inject_Z 1) with 1%Q in *.
        change (inject_Z (-180)) with (-180)%Q in *.
        apply lt_Fin in Hlt.
        change (inject_Z (-180)) with (-180)%Q in Hlt.
        pose proof (Qabs_neg x ltac:(lra)) as Habs. lra.
      * rewrite Hr. simpl. eauto.
    + rewrite convert_base by done. eauto.
Qed.
End ExactRecursion.

Section ExactTotal.
Import Exact ExactFacts.

Lemma magnitude_bound (x : Q) :
  (x <= inject_Z (Z.of_nat (magnitude (Fin x))))%Q /\
  (- inject_Z (Z.of_nat (magnitude (Fin x))) <= x)%Q.
Proof.
  unfold magnitude.
  pose proof (Qle_ceiling (Qabs x)) as Hc.
  assert (inject_Z (Qceiling (Qabs x))
          <= inject_Z (Z.of_nat (Z.to_nat (Qceiling (Qabs x)))))%Q as Hn
    by (rewrite <- Zle_Qle; lia).
  pose proof (Qle_Qabs x) as Hx.
  pose proof (Qle_Qabs (- x)) as Hx'. rewrite Qabs_opp in Hx'.
  split; lra.
Qed.

(** In exact arithmetic the recursion reaches the base case on every
    extent: there is a depth from which the call returns, always with the
    same result. *)
Lemma convert_exact_total (e : MapExtent num) :
  exists fuel r, forall fuel',
    fuel <= fuel' -> convertMapExtentToEnvelope fuel' e = Some r.
Proof.
  set (k := magnitude (maxLon e) + magnitude (minLon e)).
  destruct (convert_exact_returns k e) as [r Hr].
  - destruct (maxLon e) as [|x] eqn:Hx; [done|].
    rewrite lit_Q. apply lt_Fin_false.
    destruct (magnitude_bound x) as [Hb _].
    rewrite inject_Z_plus, inject_Z_mult. subst k.
    rewrite Nat2Z.inj_add, inject_Z_plus.
    assert (0 <= inject_Z (Z.of_nat (magnitude (Fin x))))%Q
      by (rewrite <- (Zle_Qle 0); lia).
    assert (0 <= inject_Z (Z.of_nat (magnitude (minLon e))))%Q
      by (rewrite <- (Zle_Qle 0); lia).
    change (inject_Z 360) with 360%Q.
    change (inject_Z 180) with 180%Q. lra.
  - destruct (minLon e) as [|x] eqn:Hx; [done|].
    rewrite lit_Q. apply lt_Fin_false.
    destruct (magnitude_bound x) as [_ Hb].
    unfold Z.sub. rewrite inject_Z_plus, inject_Z_opp, inject_Z_mult.
    subst k. rewrite Nat2Z.inj_add, inject_Z_plus.
    assert (0 <= inject_Z (Z.of_nat (magnitude (Fin x))))%Q
      by (rewrite <- (Zle_Qle 0); lia).
    assert (0 <= inject_Z (Z.of_nat (magnitude (maxLon e))))%Q
      by (rewrite <- (Zle_Qle 0); lia).
    change (inject_Z 360) with 360%Q.
    change (inject_Z (-180)) with (-180)%Q. lra.
  - exists (S (S k)), r. intros fuel' Hle.
    by apply (convert_fuel_le (S (S k))).
Qed.

(** X5. What the splitting does achieve: when the western bound is not
    beyond 180 and the eastern one not beyond -180, every envelope of the
    result has both longitudes in [-180, 180]. *)
Lemma convert_exact_in_range (fuel : nat) :
  forall (e : MapExtent num) (r : Envelopes num),
    (minLon e <=? num_lit 180)%js = true ->
    (num_lit (-180) <=? maxLon e)%js = true ->
    convertMapExtentToEnvelope fuel e = Some r ->
    Forall (fun env =>
              Forall (fun n => within (-180) 180 n = true) (envelope_lons env))
           (envelopes r).
Proof.
  induction fuel as [|fuel IH]; intros e r Hw He; [done|].
  destruct (le_inv _ _ Hw) as (w & c & Hwq & Hc & Hwc).
  injection Hc as <-.
  destruct (le_inv _ _ He) as (c & x & Hc & Hxq & Hcx).
  injection Hc as <-.
  change (inject_Z 180) with 180%Q in Hwc.
  change (inject_Z (-180)) with (-180)%Q in Hcx.
  destruct (maxLon e >? num_lit 180)%js eqn:Hgt,
           (minLon e <? num_lit (-180))%js eqn:Hlt.
  - rewrite convert_both by done. by apply IH.
  - rewrite convert_east by done. intros Hr.
    apply bind_Some in Hr as (a & Ha & Hr).
    apply bind_Some in Hr as (b & Hb & [= <-]).
    simpl. apply Forall_app. split.
    + refine (IH _ _ _ _ Ha); [exact Hw|reflexivity].
    + refine (IH _ _ _ _ Hb); [reflexivity|].
      cbn [maxLon]. rewrite Hxq in *. apply lt_Fin in Hgt.
      change (inject_Z 180) with 180%Q in Hgt.
      simpl. apply Qle_bool_iff.
      change (inject_Z (-180)) with (-180)%Q.
      change (inject_Z 180) with 180%Q. lra.
  - rewrite convert_west by done. intros Hr.
    apply bind_Some in Hr as (a & Ha & Hr).
    apply bind_Some in Hr as (b & Hb & [= <-]).
    simpl. apply Forall_app. split.
    + refine (IH _ _ _ _ Ha); [|reflexivity].
      cbn [minLon]. rewrite Hwq in *. apply lt_Fin in Hlt.
      change (inject_Z (-180)) with (-180)%Q in Hlt.
      simpl. apply Qle_bool_iff.
      change (inject_Z 180) with 180%Q.
      pose proof (Qabs_neg w ltac:(lra)) as Habs. lra.
    + refine (IH _ _ _ _ Hb); [reflexivity|exact He].
  - rewrite convert_base by done. intros [= <-].
    rewrite Hwq, Hxq in *.
    apply lt_Fin_false in Hgt, Hlt.
    change (inject_Z 180) with 180%Q in Hgt.
    change (inject_Z (-180)) with (-180)%Q in Hlt.
    repeat constructor; unfold within; apply andb_true_iff;
      split; by apply Qle_bool_iff.
Qed.
End ExactTotal.

(** ** [hitsToGeoJson] *)

Section HitsFacts.
Context {Num : Type} (parseFloat : string -> Num).
Context (lodash_has : Hit Num -> string -> bool).
Context (lodash_get : Hit Num -> string -> value Num).

(** A loop whose body throws on no element returns the results of the
    elements, in their order. *)
Lemma mapM_Ok {A B : Type} (f : A -> result Num B) (l : list A) :
  (forall a, a ∈ l -> throws (f a) = false) ->
  exists bs, mapM f l = Ok bs /\ Forall2 (fun a b => f a = Ok b) l bs.
Proof.
  induction l as [|a l IH]; intros Hl; simpl.
  - exists []. by split.
  - destruct (f a) as [b|err] eqn:Hfa.
    + destruct IH as (bs & -> & Hbs).
      { intros a' Ha'. apply Hl. by right. }
      exists (b :: bs). split; [done|]. by constructor.
    + specialize (Hl a ltac:(left)). by rewrite Hfa in Hl.
Qed.

(** With an unsupported discriminator the callback throws before it does
    anything else. *)
Lemma hitToFeature_unsupported (geoFieldName : string)
    (geoFieldType : value Num) (hit : Hit Num) :
  is_str "geo_point" geoFieldType || is_str "geo_shape" geoFieldType = false ->
  hitToFeature parseFloat lodash_get geoFieldName geoFieldType hit
  = Throw (UnsupportedFieldType geoFieldType).
Proof.
  unfold hitToFeature. intros Hty.
  apply orb_false_iff in Hty as [-> ->]. done.
Qed.

Lemma filter_existsb_false (test : Hit Num -> bool) (hits : list (Hit Num)) :
  existsb test hits = false ->
  filter (fun hit => test hit = true) hits = [].
Proof.
  induction hits as [|hit hits IH]; simpl; [done|].
  intros Hex. apply orb_false_iff in Hex as [Hhit Hhits].
  rewrite filter_cons_False by congruence. by apply IH.
Qed.

Lemma filter_existsb_true (test : Hit Num -> bool) (hits : list (Hit Num)) :
  existsb test hits = true ->
  exists hit kept, filter (fun hit => test hit = true) hits = hit :: kept.
Proof.
  induction hits as [|hit hits IH]; simpl; [done|].
  destruct (test hit) eqn:Hhit; simpl.
  - intros _. rewrite filter_cons_True by done. eauto.
  - intros Hex. rewrite filter_cons_False by congruence. by apply IH.
Qed.

(** A feature that the callback returns is a record of type 'Feature' whose
    geometry is converted from what [_.get] finds on the path of the geo
    field. *)
Lemma hitToFeature_Ok_inv (geoFieldName : string) (geoFieldType : value Num)
    (hit : Hit Num) (feature : value Num) :
  hitToFeature parseFloat lodash_get geoFieldName geoFieldType hit
  = Ok feature ->
  exists geometry properties,
    feature = VObj {[ "type" := VStr "Feature"; "geometry" := geometry;
                      "properties" := VObj properties ]} /\
    (if is_str "geo_point" geoFieldType
     then geoPointToGeometry parseFloat
            (lodash_get hit ("_source[" +:+ geoFieldName +:+ "]"))
     else geoShapeToGeometry
            (lodash_get hit ("_source[" +:+ geoFieldName +:+ "]")))
    = Ok geometry.
Proof.
  unfold hitToFeature, source_path.
  destruct (is_str "geo_point" geoFieldType).
  - destruct (geoPointToGeometry _ _) as [geometry|]; [simpl|done].
    destruct (for_own (_source hit) _ _) as [p1|]; [simpl|done].
    destruct (for_own (fields hit) _ _) as [p2|]; [simpl|done].
    intros [= <-]. eauto.
  - destruct (is_str "geo_shape" geoFieldType); [|done].
    destruct (geoShapeToGeometry _) as [geometry|]; [simpl|done].
    destruct (for_own (_source hit) _ _) as [p1|]; [simpl|done].
    destruct (for_own (fields hit) _ _) as [p2|]; [simpl|done].
    intros [= <-]. eauto.
Qed.

(** C9, as the code has it. A record possesses the geo field when [_.has]
    finds the path [_source[geoFieldName]] in it. For [geo_point] and
    [geo_shape], when the callback throws on none of the records that
    possess the geo field, the result is the record { type:
    'FeatureCollection', features } whose features are the features of
    exactly those records, in the order of the input, each a record of type
    'Feature' with the geometry converted from its geo field; the records
    without the geo field are dropped and never looked at. *)
Theorem C9_hitsToGeoJson_features_of_kept_records
    (hits : list (Hit Num)) (geoFieldName : string)
    (geoFieldType : value Num) :
  geoFieldType = VStr "geo_point" \/ geoFieldType = VStr "geo_shape" ->
  (forall hit, hit ∈ hits ->
     lodash_has hit ("_source[" +:+ geoFieldName +:+ "]") = true ->
     throws (hitToFeature parseFloat lodash_get geoFieldName geoFieldType hit)
     = false) ->
  exists features,
    hitsToGeoJson parseFloat lodash_has lodash_get hits geoFieldName
      geoFieldType
    = Ok (VObj {[ "type" := VStr "FeatureCollection";
                  "features" := VArr features ]}) /\
    Forall2
      (fun hit feature =>
         hitToFeature parseFloat lodash_get geoFieldName geoFieldType hit
         = Ok feature /\
         exists geometry properties,
           feature = VObj {[ "type" := VStr "Feature";
                             "geometry" := geometry;
                             "properties" := VObj properties ]} /\
           (if is_str "geo_point" geoFieldType
            then geoPointToGeometry parseFloat
                   (lodash_get hit ("_source[" +:+ geoFieldName +:+ "]"))
            else geoShapeToGeometry
                   (lodash_get hit ("_source[" +:+ geoFieldName +:+ "]")))
           = Ok geometry)
      (filter (fun hit =>
                 lodash_has hit ("_source[" +:+ geoFieldName +:+ "]") = true)
              hits)
      features.
Proof.
  intros _ Hkept. unfold hitsToGeoJson, source_path.
  destruct (mapM_Ok
              (hitToFeature parseFloat lodash_get geoFieldName geoFieldType)
              (filter (fun hit =>
                         lodash_has hit ("_source[" +:+ geoFieldName +:+ "]")
                         = true) hits))
    as (features & -> & Hall).
  - intros hit Hhit. apply list_elem_of_filter in Hhit as [Hhas Hin].
    by apply Hkept.
  - exists features. split; [done|].
    eapply Forall2_impl; [exact Hall|].
    intros hit feature Hfeature. split; [done|].
    by apply hitToFeature_Ok_inv.
Qed.

(** C10. When [_.has] finds the geo field in no record (the input may be
    empty), the result is the empty collection, the record { type:
    'FeatureCollection', features: [] }, whatever the discriminator; when it
    finds it in some record and the discriminator is neither [geo_point] nor
    [geo_shape], the 'Unsupported field type' error is thrown. *)
Theorem C10_hitsToGeoJson_unsupported_type_needs_a_record
    (hits : list (Hit Num)) (geoFieldName : string)
    (geoFieldType : value Num) :
  if existsb (fun hit => lodash_has hit ("_source[" +:+ geoFieldName +:+ "]"))
             hits
  then
    if is_str "geo_point" geoFieldType || is_str "geo_shape" geoFieldType
    then True
    else hitsToGeoJson parseFloat lodash_has lodash_get hits geoFieldName
           geoFieldType
         = Throw (UnsupportedFieldType geoFieldType)
  else
    hitsToGeoJson parseFloat lodash_has lodash_get hits geoFieldName
      geoFieldType
    = Ok (VObj {[ "type" := VStr "FeatureCollection";
                  "features" := VArr [] ]}).
Proof.
  unfold hitsToGeoJson, source_path.
  destruct (existsb _ hits) eqn:Hex.
  - destruct (is_str "geo_point" geoFieldType
              || is_str "geo_shape" geoFieldType) eqn:Hty; [done|].
    destruct (filter_existsb_true _ _ Hex) as (hit & kept & ->).
    simpl. by rewrite hitToFeature_unsupported.
  - by rewrite (filter_existsb_false _ _ Hex).
Qed.
End HitsFacts.

(** C9, as stated, fails on a record whose geo field holds a geohash: the
    record possesses the field, and instead of a collection with its feature
    the call throws. *)
Lemma C9_counterexample_geohash :
  let hit : Hit Exact.num :=
    {| _source := Some {[ "location" := VStr "u4pruydqqvj" ]};
       fields := None |} in
  plain_has hit "_source[location]" = true /\
  hitsToGeoJson Exact.parseInteger plain_has plain_get [hit] "location"
    (VStr "geo_point")
  = Throw GeohashNotSupported.
Proof. split; vm_compute; reflexivity. Qed.

(** Three records of which the second lacks the geo field: the collection
    has exactly two features, those of the first and of the third record. *)
Lemma C9_witness :
  let first : Hit Exact.num :=
    {| _source := Some {[ "location" := VStr "41,-71"; "name" := VStr "a" ]};
       fields := None |} in
  let second : Hit Exact.num :=
    {| _source := Some {[ "name" := VStr "b" ]}; fields := None |} in
  let third : Hit Exact.num :=
    {| _source := Some {[ "location" := VArr [VNum (Exact.lit (-70));
                                              VNum (Exact.lit 42)] ]};
       fields := Some {[ "count" := VArr [VNum (Exact.lit 3)] ]} |} in
  exists first_feature third_feature,
    hitsToGeoJson Exact.parseInteger plain_has plain_get
      [first; second; third] "location" (VStr "geo_point")
    = Ok (VObj {[ "type" := VStr "FeatureCollection";
                  "features" := VArr [first_feature; third_feature] ]}) /\
    hitToFeature Exact.parseInteger plain_get "location" (VStr "geo_point")
      first = Ok first_feature /\
    hitToFeature Exact.parseInteger plain_get "location" (VStr "geo_point")
      third = Ok third_feature.
Proof.
  intros first second third.
  destruct (C9_hitsToGeoJson_features_of_kept_records Exact.parseInteger
              plain_has plain_get [first; second; third] "location"
              (VStr "geo_point"))
    as (features & Hcollection & Hfeatures).
  - left. reflexivity.
  - intros hit Hhit Hhas.
    apply list_elem_of_In in Hhit. simpl in Hhit.
    destruct Hhit as [<-|[<-|[<-|[]]]]; [vm_compute; reflexivity|..].
    + vm_compute in Hhas. discriminate Hhas.
    + vm_compute; reflexivity.
  - change (filter _ [first; second; third]) with [first; third]
      in Hfeatures.
    apply Forall2_cons_inv_l in Hfeatures
      as (first_feature & rest & [Hfirst _] & Hrest & ->).
    apply Forall2_cons_inv_l in Hrest
      as (third_feature & rest' & [Hthird _] & Hnil & ->).
    apply Forall2_nil_inv_l in Hnil as ->.
    by exists first_feature, third_feature.
Defined.

(** ** The functions on the inputs of the specification *)

(** An empty input, and an input in which no record has the geo field, give
    the empty collection even for a discriminator that is not supported. *)
Example hitsToGeoJson_nothing_kept :
  hitsToGeoJson Exact.parseInteger plain_has plain_get [] "location"
    (VStr "geo_line")
  = Ok (VObj {[ "type" := VStr "FeatureCollection";
                "features" := VArr [] ]}) /\
  hitsToGeoJson Exact.parseInteger plain_has plain_get
    [ {| _source := Some {[ "name" := VStr "a" ]}; fields := None |};
      {| _source := None; fields := None |} ]
    "location" VUndefined
  = Ok (VObj {[ "type" := VStr "FeatureCollection";
                "features" := VArr [] ]}).
Proof. split; vm_compute; reflexivity. Qed.

(** A tag in standard form is not in the table and passes through; an
    Elasticsearch tag is rewritten; an envelope is refused. *)
Example geoShapeToGeometry_tags :
  geoShapeToGeometry
    (VObj {[ "type" := VStr "Polygon"; "coordinates" := VArr [] ]}
     : value Exact.num)
  = Ok (VObj {[ "type" := VStr "Polygon"; "coordinates" := VArr [] ]}) /\
  geoShapeToGeometry
    (VObj {[ "type" := VStr "multilinestring"; "coordinates" := VArr [] ]}
     : value Exact.num)
  = Ok (VObj {[ "type" := VStr "MultiLineString"; "coordinates" := VArr [] ]}) /\
  geoShapeToGeometry
    (VObj {[ "type" := VStr "envelope"; "coordinates" := VArr [] ]}
     : value Exact.num)
  = Throw (GeometryNotSupported (VStr "envelope")).
Proof. repeat split; vm_compute; reflexivity. Qed.

(** An extent that wraps past both edges collapses to the whole range. *)
Example convertMapExtentToEnvelope_both_edges :
  convertMapExtentToEnvelope 2
    {| maxLat := Exact.lit 10; maxLon := Exact.lit 200;
       minLat := Exact.lit (-10); minLon := Exact.lit (-200) |}
  = Some (One {| type := "envelope";
                 coordinates := [ [Exact.lit (-180); Exact.lit 10];
                                  [Exact.lit 180; Exact.lit (-10)] ] |}).
Proof. reflexivity. Qed.

(** * Further properties *)

(** ** [convertMapExtentToEnvelope] *)

Section ConvertShape.
Context {Num : Type} `{JsNumber Num}.

(** X1. Whatever the number type, every envelope of a result carries the
    type tag "envelope" and two corners whose latitudes are the [maxLat] and
    the [minLat] of the extent, untouched: the splitting only ever rewrites
    longitudes. *)
Theorem convert_keeps_latitudes (fuel : nat) :
  forall (e : MapExtent Num) (r : Envelopes Num),
    convertMapExtentToEnvelope fuel e = Some r ->
    Forall (fun env =>
              type env = "envelope" /\
              exists west east,
                coordinates env = [ [west; maxLat e]; [east; minLat e] ])
           (envelopes r).
Proof.
  induction fuel as [|fuel IH]; intros e r; [done|].
  destruct (maxLon e >? num_lit 180)%js eqn:Hmax,
           (minLon e <? num_lit (-180))%js eqn:Hmin.
  - rewrite convert_both by done. intros Hr. by apply IH in Hr.
  - rewrite convert_east by done. intros Hr.
    apply bind_Some in Hr as (a & Ha & Hr).
    apply bind_Some in Hr as (b & Hb & [= <-]).
    simpl. apply Forall_app. split; [by apply IH in Ha|by apply IH in Hb].
  - rewrite convert_west by done. intros Hr.
    apply bind_Some in Hr as (a & Ha & Hr).
    apply bind_Some in Hr as (b & Hb & [= <-]).
    simpl. apply Forall_app. split; [by apply IH in Ha|by apply IH in Hb].
  - rewrite convert_base by done. intros [= <-].
    repeat constructor. simpl. eauto.
Qed.

(** An extent beyond both edges, given that 180 is not above 180 and -180
    not below -180. *)
Lemma convert_both_whole_range (fuel : nat) (e : MapExtent Num) :
  (num_lit 180 >? num_lit 180)%js = false ->
  (num_lit (-180) <? num_lit (-180))%js = false ->
  (maxLon e >? num_lit 180)%js = true ->
  (minLon e <? num_lit (-180))%js = true ->
  convertMapExtentToEnvelope (S (S fuel)) e
  = Some (One {| type := "envelope";
                 coordinates := [ [num_lit (-180); maxLat e];
                                  [num_lit 180; minLat e] ] |}).
Proof.
  intros H180 Hm180 Hmax Hmin.
  rewrite convert_both by done. by rewrite convert_base.
Qed.
End ConvertShape.

(** The two halves of the extent of C2: both keep the latitudes 10 and
    -10. *)
Lemma convert_keeps_latitudes_witness :
  Forall (fun env =>
            type env = "envelope" /\
            exists west east,
              coordinates env
              = [ [west; Exact.lit 10]; [east; Exact.lit (-10)] ])
    [ {| type := "envelope";
         coordinates := [ [Exact.lit 170; Exact.lit 10];
                          [Exact.lit 180; Exact.lit (-10)] ] |};
      {| type := "envelope";
         coordinates := [ [Exact.lit (-180); Exact.lit 10];
                          [Exact.lit (-170); Exact.lit (-10)] ] |} ].
Proof.
  apply (convert_keeps_latitudes 2
           {| maxLat := Exact.lit 10; maxLon := Exact.lit 190;
              minLat := Exact.lit (-10); minLon := Exact.lit 170 |}
           (Two
              (One {| type := "envelope";
                      coordinates := [ [Exact.lit 170; Exact.lit 10];
                                       [Exact.lit 180; Exact.lit (-10)] ] |})
              (One {| type := "envelope";
                      coordinates := [ [Exact.lit (-180); Exact.lit 10];
                                       [Exact.lit (-170); Exact.lit (-10)] ] |}))).
  reflexivity.
Defined.

(** X2. An extent that reaches beyond both edges, [maxLon > 180] and
    [minLon < -180], is converted to the single envelope of the whole range,
    [[-180, maxLat], [180, minLat]], in exact arithmetic and in binary64
    alike. *)
Theorem convert_beyond_both_edges (fuel : nat) :
  (forall e : MapExtent Exact.num,
     (maxLon e >? num_lit 180)%js = true ->
     (minLon e <? num_lit (-180))%js = true ->
     convertMapExtentToEnvelope (S (S fuel)) e
     = Some (One {| type := "envelope";
                    coordinates := [ [num_lit (-180); maxLat e];
                                     [num_lit 180; minLat e] ] |})) /\
  (forall e : MapExtent float,
     (maxLon e >? num_lit 180)%js = true ->
     (minLon e <? num_lit (-180))%js = true ->
     convertMapExtentToEnvelope (S (S fuel)) e
     = Some (One {| type := "envelope";
                    coordinates := [ [num_lit (-180); maxLat e];
                                     [num_lit 180; minLat e] ] |})).
Proof.
  split; intros e Hmax Hmin; by apply convert_both_whole_range.
Qed.

(** The extent [{maxLat: 10, maxLon: 200, minLat: -10, minLon: -200}], in
    binary64. *)
Lemma convert_beyond_both_edges_witness :
  convertMapExtentToEnvelope 2
    {| maxLat := 10%float; maxLon := 200%float;
       minLat := (-10)%float; minLon := (-200)%float |}
  = Some (One {| type := "envelope";
                 coordinates := [ [(-180)%float; 10%float];
                                  [180%float; (-10)%float] ] |}).
Proof.
  apply (proj2 (convert_beyond_both_edges 0)
           {| maxLat := 10%float; maxLon := 200%float;
              minLat := (-10)%float; minLon := (-200)%float |});
    reflexivity.
Defined.

Section ExactWest.
Import Exact ExactFacts.

(** X3. The mirror image of C2. An extent with [maxLon] in [-180, 180] and
    [minLon] in [-540, -180) is converted to an array of two single
    envelopes: the first from [180 - (|minLon| - 180)], which is
    [minLon + 360], to 180, the second from -180 to [maxLon]. *)
Theorem convert_west_crossing (fuel : nat) (e : MapExtent num) :
  within (-180) 180 (maxLon e) = true ->
  (minLon e <? num_lit (-180))%js = true ->
  (num_lit (-540) <=? minLon e)%js = true ->
  convertMapExtentToEnvelope (S (S fuel)) e
  = Some (Two
      (One {| type := "envelope";
              coordinates :=
                [ [(num_lit 180 - (num_abs (minLon e) - num_lit 180))%js;
                   maxLat e];
                  [num_lit 180; minLat e] ] |})
      (One {| type := "envelope";
              coordinates := [ [num_lit (-180); maxLat e];
                               [maxLon e; minLat e] ] |})) /\
  eqb (num_lit 180 - (num_abs (minLon e) - num_lit 180))%js
      (minLon e + num_lit 360)%js = true.
Proof.
  unfold within. rewrite andb_true_iff. intros [Hlo Hhi] Hlt Hle.
  pose proof (le_not_gt _ _ Hhi) as Hmax.
  destruct (lt_inv _ _ Hlt) as (x & c & Hx & Hc & Hxc).
  injection Hc as <-.
  destruct (le_inv _ _ Hle) as (d & x' & Hd & Hx' & Hdx).
  rewrite Hx in Hx'. injection Hx' as <-. injection Hd as <-.
  change (inject_Z (-180)) with (-180)%Q in Hxc.
  change (inject_Z (-540)) with (-540)%Q in Hdx.
  pose proof (Qabs_neg x ltac:(lra)) as Habs.
  split.
  - rewrite convert_west by done.
    rewrite (convert_base fuel
               {| maxLat := maxLat e; maxLon := maxLon e;
                  minLat := minLat e; minLon := num_lit (-180) |}) by done.
    rewrite (convert_base fuel
               {| maxLat := maxLat e; maxLon := num_lit 180;
                  minLat := minLat e;
                  minLon := (num_lit 180
                             - (num_abs (minLon e) - num_lit 180))%js |});
      [done|done|].
    cbn [minLon]. rewrite Hx. simpl. apply lt_Fin_false.
    change (inject_Z 180) with 180%Q.
    change (inject_Z (-180)) with (-180)%Q. lra.
  - rewrite Hx. simpl. apply Qeq_bool_iff.
    change (inject_Z 180) with 180%Q.
    change (inject_Z 360) with 360%Q. lra.
Qed.
End ExactWest.

(** The extent [{maxLat: 10, maxLon: -170, minLat: -10, minLon: -190}] gives
    the two envelopes [[170, 10], [180, -10]] and
    [[-180, 10], [-170, -10]]. *)
Lemma convert_west_crossing_witness :
  convertMapExtentToEnvelope 2
    {| maxLat := Exact.lit 10; maxLon := Exact.lit (-170);
       minLat := Exact.lit (-10); minLon := Exact.lit (-190) |}
  = Some (Two
      (One {| type := "envelope";
              coordinates := [ [Exact.lit 170; Exact.lit 10];
                               [Exact.lit 180; Exact.lit (-10)] ] |})
      (One {| type := "envelope";
              coordinates := [ [Exact.lit (-180); Exact.lit 10];
                               [Exact.lit (-170); Exact.lit (-10)] ] |})).
Proof.
  apply (convert_west_crossing 0
           {| maxLat := Exact.lit 10; maxLon := Exact.lit (-170);
              minLat := Exact.lit (-10); minLon := Exact.lit (-190) |});
    reflexivity.
Defined.

(** ** [createExtentFilter] *)

Section FilterIdentity.
Context {Num : Type} `{JsNumber Num} `{!JsOrder Num}.

(** X6. An extent whose western and southern bounds are not below -180 and
    -90 and whose eastern and northern bounds are not above 180 and 90 goes
    into the filter as it is, for both field types and whatever the number
    type: the corners of the bounding box and of the envelope are the bounds
    of the extent. *)
Theorem createExtentFilter_keeps_valid_extent
    (e : MapExtent Num) (geoFieldName : string) :
  (num_lit (-180) <=? minLon e)%js = true ->
  (num_lit (-90) <=? minLat e)%js = true ->
  (maxLon e <=? num_lit 180)%js = true ->
  (maxLat e <=? num_lit 90)%js = true ->
  createExtentFilter e geoFieldName (VStr "geo_point")
  = Ok (geo_bounding_box geoFieldName
          {| lat := maxLat e; lon := minLon e |}
          {| lat := minLat e; lon := maxLon e |}) /\
  createExtentFilter e geoFieldName (VStr "geo_shape")
  = Ok (geo_shape geoFieldName
          {| type := "envelope";
             coordinates := [ [minLon e; maxLat e]; [maxLon e; minLat e] ] |}
          "INTERSECTS").
Proof.
  intros Hw Hs He Hn.
  apply le_not_gt in Hw, Hs, He, Hn.
  unfold createExtentFilter. simpl. by rewrite Hw, Hs, He, Hn.
Qed.
End FilterIdentity.

(** A valid extent, in binary64. *)
Lemma createExtentFilter_keeps_valid_extent_witness :
  createExtentFilter
    {| maxLat := 39%float; maxLon := (-83)%float;
       minLat := 35%float; minLon := (-89)%float |}
    "location" (VStr "geo_point")
  = Ok (geo_bounding_box "location"
          {| lat := 39%float; lon := (-89)%float |}
          {| lat := 35%float; lon := (-83)%float |}) /\
  createExtentFilter
    {| maxLat := 39%float; maxLon := (-83)%float;
       minLat := 35%float; minLon := (-89)%float |}
    "location" (VStr "geo_shape")
  = Ok (geo_shape "location"
          {| type := "envelope";
             coordinates := [ [(-89)%float; 39%float];
                              [(-83)%float; 35%float] ] |}
          "INTERSECTS").
Proof.
  apply (createExtentFilter_keeps_valid_extent
           {| maxLat := 39%float; maxLon := (-83)%float;
              minLat := 35%float; minLon := (-89)%float |} "location");
    reflexivity.
Defined.

(** The extent of the tests of kibana, [{maxLat: 39, maxLon: 209, minLat: 35,
    minLon: -191}]: it straddles the range, and all the coordinates of its
    filter are in range. *)
Lemma createExtentFilter_in_range_witness :
  Forall (fun n => within (-180) 180 n = true)
         [Exact.lit (-180); Exact.lit 180] /\
  Forall (fun n => within (-90) 90 n = true)
         [Exact.lit 39; Exact.lit 35].
Proof.
  apply (createExtentFilter_in_range
           {| maxLat := Exact.lit 39; maxLon := Exact.lit 209;
              minLat := Exact.lit 35; minLon := Exact.lit (-191) |}
           "location" (VStr "geo_point")
           (geo_bounding_box "location"
              {| lat := Exact.lit 39; lon := Exact.lit (-180) |}
              {| lat := Exact.lit 35; lon := Exact.lit 180 |}));
    reflexivity.
Defined.

(** An extent of two turns east, [{maxLon: 900, minLon: 0}]: the longitudes
    of all its envelopes are in range. *)
Lemma convert_exact_in_range_witness :
  exists r,
    convertMapExtentToEnvelope 4
      {| maxLat := Exact.lit 10; maxLon := Exact.lit 900;
         minLat := Exact.lit (-10); minLon := Exact.lit 0 |} = Some r /\
    Forall (fun env =>
              Forall (fun n => within (-180) 180 n = true) (envelope_lons env))
           (envelopes r).
Proof.
  eexists. split; [reflexivity|].
  apply (convert_exact_in_range 4
           {| maxLat := Exact.lit 10; maxLon := Exact.lit 900;
              minLat := Exact.lit (-10); minLon := Exact.lit 0 |});
    reflexivity.
Defined.

(** ** [geoShapeToGeometry], once more *)

Section ShapeIdempotent.
Context {Num : Type}.

(** The mixed-case spellings are not among the cases of the [switch]. *)
Lemma geoJsonType_fixed (t : value Num) (t' : string) :
  geoJsonType t = Some t' -> geoJsonType (VStr t' : value Num) = None.
Proof.
  destruct t as [| | b | n | s | l | m]; try done.
  unfold geoJsonType, is_str.
  repeat (destruct (String.eqb s _); [by intros [= <-]|]).
  done.
Qed.

(** X9. Converting a shape twice is converting it once: what the conversion
    returns is converted to itself. *)
Theorem geoShapeToGeometry_idempotent (v v' : value Num) :
  geoShapeToGeometry v = Ok v' -> geoShapeToGeometry v' = Ok v'.
Proof.
  unfold geoShapeToGeometry. rewrite !cloneDeep_id.
  destruct v as [| | b | n | s | l | m]; try done;
    try (by intros [= <-]).
  simpl.
  pose proof (geoJsonType_spec (default VUndefined (m !! "type"))) as Ht.
  destruct (geoJsonType (default VUndefined (m !! "type"))) as [t'|] eqn:Hty.
  - destruct Ht as (_ & He' & Hc' & _ & _).
    simpl. rewrite lookup_insert_eq. simpl in *. rewrite He', Hc'. simpl.
    intros [= <-]. simpl. rewrite lookup_insert_eq. simpl.
    rewrite (geoJsonType_fixed _ _ Hty). simpl.
    rewrite lookup_insert_eq. simpl. by rewrite He', Hc'.
  - simpl.
    destruct (is_str "envelope" (default VUndefined (m !! "type"))
              || is_str "circle" (default VUndefined (m !! "type"))) eqn:Hec;
      [done|].
    intros [= <-]. simpl. rewrite Hty. simpl. by rewrite Hec.
Qed.
End ShapeIdempotent.

(** A line string of Elasticsearch and its GeoJSON form. *)
Lemma geoShapeToGeometry_idempotent_witness :
  geoShapeToGeometry
    (VObj {[ "type" := VStr "LineString"; "coordinates" := VArr [] ]}
     : value Exact.num)
  = Ok (VObj {[ "type" := VStr "LineString"; "coordinates" := VArr [] ]}).
Proof.
  apply (geoShapeToGeometry_idempotent
           (VObj {[ "type" := VStr "linestring"; "coordinates" := VArr [] ]})).
  vm_compute. reflexivity.
Defined.

(** ** The features of [hitsToGeoJson] *)

Section PropertiesFacts.
Context {Num : Type} (parseFloat : string -> Num).
Context (lodash_get : Hit Num -> string -> value Num).

(** A loop over an object that may be absent and that has no field
    [__proto__], with a body that assigns [g x] under the names that pass a
    test: the prototype stays, and under each name the loop leaves what it
    assigned, or what was there. *)
Lemma for_own_lookup (test : string -> bool) (g : value Num -> value Num)
    (body : string -> value Num -> Properties Num -> Properties Num)
    (o : option (gmap string (value Num)))
    (acc properties : Properties Num) :
  (forall i x r, i <> "__proto__" ->
     body i x r = if test i
                  then {| own := <[i := g x]> (own r); proto := proto r |}
                  else r) ->
  no_proto_field o ->
  for_own o body acc = Ok properties ->
  proto properties = proto acc /\
  forall k,
    own properties !! k
    = match o ≫= (fun m => m !! k) with
      | Some x => if test k then Some (g x) else own acc !! k
      | None => own acc !! k
      end.
Proof.
  intros Hbody. unfold for_own, no_proto_field.
  destruct o as [m|]; simpl; [|by intros _ [= <-]].
  destruct (bool_decide (is_Some (m !! "hasOwnProperty"))); [done|].
  intros Hproto [= <-]. revert Hproto.
  apply (map_fold_weak_ind
           (fun r m =>
              m !! "__proto__" = None ->
              proto r = proto acc /\
              forall k,
                own r !! k
                = match m !! k with
                  | Some x => if test k then Some (g x) else own acc !! k
                  | None => own acc !! k
                  end)).
  - intros _. split; [done|]. intros k. by rewrite lookup_empty.
  - intros i x m' r Hi IH Hproto.
    assert (i <> "__proto__") as Hne
      by (intros ->; by rewrite lookup_insert_eq in Hproto).
    rewrite lookup_insert_ne in Hproto by done.
    destruct (IH Hproto) as [IHproto IHown].
    rewrite (Hbody _ _ _ Hne).
    split; [by destruct (test i)|].
    intros k. destruct (decide (i = k)) as [->|Hik].
    + rewrite lookup_insert_eq.
      destruct (test k); simpl; [by rewrite lookup_insert_eq|].
      by rewrite IHown, Hi.
    + rewrite (lookup_insert_ne m') by done.
      destruct (test i); simpl; [by rewrite lookup_insert_ne|]; apply IHown.
Qed.

(** X12. The properties of a feature, for a record whose [_source] and
    [fields] have no field named [__proto__]. Under every name they hold the
    computed field ([hit.fields]) of that name, a one-element array replaced
    by its element, which wins over a source field of the same name;
    failing that, the [_source] field of that name, except for the field
    named [geoFieldName], which is left out. *)
Theorem hitToFeature_properties (geoFieldName : string)
    (geoFieldType : value Num) (hit : Hit Num) (feature : value Num) :
  no_proto_field (_source hit) ->
  no_proto_field (fields hit) ->
  hitToFeature parseFloat lodash_get geoFieldName geoFieldType hit
  = Ok feature ->
  exists geometry properties,
    feature = VObj {[ "type" := VStr "Feature"; "geometry" := geometry;
                      "properties" := VObj properties ]} /\
    forall k, properties !! k = expected_property geoFieldName hit k.
Proof.
  intros Hsource Hfields. unfold hitToFeature.
  destruct (if is_str "geo_point" geoFieldType
            then geoPointToGeometry parseFloat _
            else if is_str "geo_shape" geoFieldType
                 then geoShapeToGeometry _
                 else Throw (UnsupportedFieldType geoFieldType))
    as [geometry|]; [simpl|done].
  destruct (for_own (_source hit) _ new_properties) as [p1|] eqn:H1;
    [simpl|done].
  destruct (for_own (fields hit) _ p1) as [p2|] eqn:H2; [simpl|done].
  intros [= <-]. exists geometry, (own p2). split; [done|].
  assert (forall i x (r : Properties Num), i <> "__proto__" ->
             set_property i (unwrap x) r
             = if true
               then {| own := <[i := unwrap x]> (own r); proto := proto r |}
               else r) as Hb2.
  { intros i x r Hi. unfold set_property.
    by rewrite bool_decide_eq_false_2. }
  assert (forall i x (r : Properties Num), i <> "__proto__" ->
             (if bool_decide (i <> geoFieldName)
              then set_property i x r else r)
             = if bool_decide (i <> geoFieldName)
               then {| own := <[i := id x]> (own r); proto := proto r |}
               else r) as Hb1.
  { intros i x r Hi. unfold set_property.
    by rewrite (bool_decide_eq_false_2 (i = "__proto__")). }
  destruct (for_own_lookup (fun _ => true) unwrap _ _ _ _ Hb2 Hfields H2)
    as [_ Hown2].
  destruct (for_own_lookup _ id _ _ _ _ Hb1 Hsource H1) as [_ Hown1].
  intros k. rewrite Hown2, Hown1. simpl. rewrite lookup_empty.
  unfold expected_property.
  destruct (fields hit ≫= _) as [val|].
  - by destruct val as [| | b | n | s | [|x [|y l]] | m].
  - destruct (_source hit ≫= _) as [x|];
      by repeat case_bool_decide; simplify_eq.
Qed.

(** X13. For [geo_point] and for [geo_shape], the callback throws exactly
    when the conversion of what [_.get] finds on the path of the geo field
    throws, or the [_source] or the [fields] of the record have an own
    property [hasOwnProperty], which hides the method the loops call; it
    returns otherwise. *)
Theorem hitToFeature_throws (geoFieldName : string) (hit : Hit Num) :
  throws (hitToFeature parseFloat lodash_get geoFieldName (VStr "geo_point")
            hit)
  = throws (geoPointToGeometry parseFloat
              (lodash_get hit ("_source[" +:+ geoFieldName +:+ "]")))
    || shadows (_source hit) || shadows (fields hit) /\
  throws (hitToFeature parseFloat lodash_get geoFieldName (VStr "geo_shape")
            hit)
  = throws (geoShapeToGeometry
              (lodash_get hit ("_source[" +:+ geoFieldName +:+ "]")))
    || shadows (_source hit) || shadows (fields hit).
Proof.
  unfold hitToFeature, source_path, for_own, shadows. split.
  - change (is_str "geo_point" (VStr "geo_point")) with true. cbv iota.
    destruct (geoPointToGeometry _ _) as [geometry|]; [simpl|done].
    destruct (_source hit) as [src|], (fields hit) as [flds|]; simpl;
      repeat case_bool_decide; done.
  - change (is_str "geo_point" (VStr "geo_shape")) with false.
    change (is_str "geo_shape" (VStr "geo_shape")) with true. cbv iota.
    destruct (geoShapeToGeometry _) as [geometry|]; [simpl|done].
    destruct (_source hit) as [src|], (fields hit) as [flds|]; simpl;
      repeat case_bool_decide; done.
Qed.
End PropertiesFacts.

(** A record with a source field, the geo field and a computed field. *)
Lemma hitToFeature_properties_witness :
  let hit : Hit Exact.num :=
    {| _source := Some {[ "location" := VStr "41,-71"; "name" := VStr "c" ]};
       fields := Some {[ "count" := VArr [VNum (Exact.lit 3)] ]} |} in
  exists geometry properties,
    hitToFeature Exact.parseInteger plain_get "location" (VStr "geo_point")
      hit
    = Ok (VObj {[ "type" := VStr "Feature"; "geometry" := geometry;
                  "properties" := VObj properties ]}) /\
    properties !! "count" = Some (VNum (Exact.lit 3)) /\
    properties !! "name" = Some (VStr "c") /\
    properties !! "location" = None.
Proof.
  intros hit.
  destruct (hitToFeature_properties Exact.parseInteger plain_get "location"
              (VStr "geo_point") hit _ eq_refl eq_refl eq_refl)
    as (geometry & properties & Hfeature & Hproperties).
  exists geometry, properties. split.
  - rewrite <- Hfeature. reflexivity.
  - rewrite !Hproperties. repeat split; vm_compute; reflexivity.
Defined.

(** A record whose computed fields hide [hasOwnProperty]: the callback
    throws although the geometry converts. *)
Lemma hitToFeature_throws_witness :
  throws (hitToFeature Exact.parseInteger plain_get "location"
            (VStr "geo_point")
            {| _source := Some {[ "location" := VStr "41,-71" ]};
               fields := Some {[ "hasOwnProperty" := VArr [VBool true] ]} |})
  = true.
Proof.
  rewrite (proj1 (hitToFeature_throws Exact.parseInteger plain_get "location"
                    _)).
  reflexivity.
Defined.

Section CollectionFacts.
Context {Num : Type} (parseFloat : string -> Num).
Context (lodash_has : Hit Num -> string -> bool).
Context (lodash_get : Hit Num -> string -> value Num).

Lemma mapM_app {A B : Type} (f : A -> result Num B) (l1 l2 : list A) :
  mapM f (l1 ++ l2)%list
  = (bs1 <- mapM f l1;; bs2 <- mapM f l2;; Ok (bs1 ++ bs2)%list).
Proof.
  induction l1 as [|a l1 IH]; simpl.
  - by destruct (mapM f l2).
  - destruct (f a) as [b|]; simpl; [|done].
    rewrite IH. destruct (mapM f l1) as [bs1|]; simpl; [|done].
    by destruct (mapM f l2).
Qed.

(** X14. The error of a call is the error of the first record, in the order
    of the input, among those in which [_.has] finds the geo field, on which
    the callback throws: the records before it are converted, the records
    without the geo field are skipped, and the records after it are not
    looked at. *)
Theorem hitsToGeoJson_first_error (before after : list (Hit Num))
    (hit : Hit Num) (geoFieldName : string) (geoFieldType : value Num)
    (e : error Num) :
  (forall hit', hit' ∈ before ->
     lodash_has hit' ("_source[" +:+ geoFieldName +:+ "]") = true ->
     throws (hitToFeature parseFloat lodash_get geoFieldName geoFieldType hit')
     = false) ->
  lodash_has hit ("_source[" +:+ geoFieldName +:+ "]") = true ->
  hitToFeature parseFloat lodash_get geoFieldName geoFieldType hit = Throw e ->
  hitsToGeoJson parseFloat lodash_has lodash_get
    (before ++ hit :: after)%list geoFieldName geoFieldType
  = Throw e.
Proof.
  intros Hbefore Hhas Hthrow. unfold hitsToGeoJson, source_path.
  rewrite filter_app, filter_cons_True by done.
  rewrite mapM_app.
  destruct (mapM_Ok
              (hitToFeature parseFloat lodash_get geoFieldName geoFieldType)
              (filter (fun hit =>
                         lodash_has hit ("_source[" +:+ geoFieldName +:+ "]")
                         = true) before))
    as (features & -> & _).
  { intros hit' Hhit'. apply list_elem_of_filter in Hhit' as [Hhas' Hin].
    by apply Hbefore. }
  simpl. by rewrite Hthrow.
Qed.

(** X15. The collection of two inputs joined is the two collections joined:
    when the calls on two inputs return the records { type:
    'FeatureCollection', features } with the features [features1] and
    [features2], the call on the concatenation returns that record with
    [features1] followed by [features2]. *)
Theorem hitsToGeoJson_app (hits1 hits2 : list (Hit Num))
    (geoFieldName : string) (geoFieldType : value Num)
    (features1 features2 : list (value Num)) :
  hitsToGeoJson parseFloat lodash_has lodash_get hits1 geoFieldName
    geoFieldType
  = Ok (VObj {[ "type" := VStr "FeatureCollection";
                "features" := VArr features1 ]}) ->
  hitsToGeoJson parseFloat lodash_has lodash_get hits2 geoFieldName
    geoFieldType
  = Ok (VObj {[ "type" := VStr "FeatureCollection";
                "features" := VArr features2 ]}) ->
  hitsToGeoJson parseFloat lodash_has lodash_get (hits1 ++ hits2)%list
    geoFieldName geoFieldType
  = Ok (VObj {[ "type" := VStr "FeatureCollection";
                "features" := VArr (features1 ++ features2)%list ]}).
Proof.
  unfold hitsToGeoJson. rewrite filter_app, mapM_app.
  destruct (mapM _ (filter _ hits1)) as [bs1|]; [simpl|done].
  destruct (mapM _ (filter _ hits2)) as [bs2|]; [simpl|done].
  intros H1 H2.
  apply (f_equal (fun r => match r with
                           | Ok (VObj m) => m !! "features"
                           | _ => None
                           end)) in H1, H2.
  unfold FeatureCollection in H1, H2. cbv beta iota in H1, H2.
  rewrite !lookup_insert_ne in H1, H2 by done.
  rewrite ?lookup_insert_eq, ?lookup_singleton_eq in H1, H2.
  by injection H1 as ->; injection H2 as ->.
Qed.
End CollectionFacts.

(** A record without the geo field, a record with a point, then a record
    with a geohash and one more: the geohash error comes out. *)
Lemma hitsToGeoJson_first_error_witness :
  hitsToGeoJson Exact.parseInteger plain_has plain_get
    [ {| _source := Some {[ "name" := VStr "a" ]}; fields := None |};
      {| _source := Some {[ "location" := VStr "41,-71" ]}; fields := None |};
      {| _source := Some {[ "location" := VStr "u4pruydqqvj" ]};
         fields := None |};
      {| _source := Some {[ "location" := VNull ]}; fields := None |} ]
    "location" (VStr "geo_point")
  = Throw GeohashNotSupported.
Proof.
  apply (hitsToGeoJson_first_error Exact.parseInteger plain_has plain_get
           [ {| _source := Some {[ "name" := VStr "a" ]}; fields := None |};
             {| _source := Some {[ "location" := VStr "41,-71" ]};
                fields := None |} ]
           [ {| _source := Some {[ "location" := VNull ]}; fields := None |} ]
           {| _source := Some {[ "location" := VStr "u4pruydqqvj" ]};
              fields := None |}).
  - intros hit' Hhit' Hhas.
    apply list_elem_of_In in Hhit'. simpl in Hhit'.
    destruct Hhit' as [<-|[<-|[]]]; vm_compute; reflexivity.
  - reflexivity.
  - reflexivity.
Defined.

(** Two inputs of one record each. *)
Lemma hitsToGeoJson_app_witness :
  hitsToGeoJson Exact.parseInteger plain_has plain_get
    ([ {| _source := Some {[ "location" := VStr "41,-71" ]}; fields := None |} ]
     ++ [ {| _source := Some {[ "location" := VStr "42,-70" ]};
             fields := None |} ])%list
    "location" (VStr "geo_point")
  = Ok (VObj
          {[ "type" := VStr "FeatureCollection";
             "features" :=
               VArr ([ VObj {[ "type" := VStr "Feature";
                               "geometry" :=
                                 VObj {[ "type" := VStr "Point";
                                         "coordinates" :=
                                           VArr [VNum (Exact.lit (-71));
                                                 VNum (Exact.lit 41)] ]};
                               "properties" := VObj ∅ ]} ]
                     ++ [ VObj {[ "type" := VStr "Feature";
                                  "geometry" :=
                                    VObj {[ "type" := VStr "Point";
                                            "coordinates" :=
                                              VArr [VNum (Exact.lit (-70));
                                                    VNum (Exact.lit 42)] ]};
                                  "properties" := VObj ∅ ]} ])%list ]}).
Proof.
  apply (hitsToGeoJson_app Exact.parseInteger plain_has plain_get);
    vm_compute; reflexivity.
Defined.

(** ** [makeGeohashGridPolygon] *)

Section GeohashGridFacts.
Context {Num : Type}.

(** X11. The polygon of a geohash cell. With fewer than four corners the
    function throws a TypeError. With four or more it returns the record
    { type: 'Polygon', coordinates: [ring] } with one ring of five positions:
    the first four corners, each as [second coordinate, first coordinate]
    (so [lat, lon] becomes [lon, lat]), and the first corner again, which
    closes the ring. A coordinate that a corner lacks is [undefined];
    further corners and further coordinates are not read. *)
Theorem makeGeohashGridPolygon_closed_ring
    (geohashGridFeature : GeohashGridFeature Num) :
  match rectangle geohashGridFeature with
  | c0 :: c1 :: c2 :: c3 :: _ =>
      makeGeohashGridPolygon geohashGridFeature
      = Ok (VObj
              {[ "type" := VStr "Polygon";
                 "coordinates" :=
                   VArr [VArr [
                     VArr [default VUndefined (c0 !! 1);
                           default VUndefined (c0 !! 0)];
                     VArr [default VUndefined (c1 !! 1);
                           default VUndefined (c1 !! 0)];
                     VArr [default VUndefined (c2 !! 1);
                           default VUndefined (c2 !! 0)];
                     VArr [default VUndefined (c3 !! 1);
                           default VUndefined (c3 !! 0)];
                     VArr [default VUndefined (c0 !! 1);
                           default VUndefined (c0 !! 0)] ]] ]})
  | _ => makeGeohashGridPolygon geohashGridFeature = Throw TypeError
  end.
Proof.
  unfold makeGeohashGridPolygon.
  destruct (rectangle geohashGridFeature) as [|c0 [|c1 [|c2 [|c3 rest]]]];
    reflexivity.
Qed.
End GeohashGridFacts.

(** The cell with the corners (41, -71), (41, -70), (40, -70), (40, -71),
    given as [lat, lon]: the ring has them as [lon, lat] and ends where it
    starts. *)
Lemma makeGeohashGridPolygon_closed_ring_witness :
  makeGeohashGridPolygon
    {| rectangle :=
         [ [VNum (Exact.lit 41); VNum (Exact.lit (-71))];
           [VNum (Exact.lit 41); VNum (Exact.lit (-70))];
           [VNum (Exact.lit 40); VNum (Exact.lit (-70))];
           [VNum (Exact.lit 40); VNum (Exact.lit (-71))] ] |}
  = Ok (VObj
          {[ "type" := VStr "Polygon";
             "coordinates" :=
               VArr [VArr [
                 VArr [VNum (Exact.lit (-71)); VNum (Exact.lit 41)];
                 VArr [VNum (Exact.lit (-70)); VNum (Exact.lit 41)];
                 VArr [VNum (Exact.lit (-70)); VNum (Exact.lit 40)];
                 VArr [VNum (Exact.lit (-71)); VNum (Exact.lit 40)];
                 VArr [VNum (Exact.lit (-71)); VNum (Exact.lit 41)] ]] ]}).
Proof.
  exact (makeGeohashGridPolygon_closed_ring
           {| rectangle :=
                [ [VNum (Exact.lit 41); VNum (Exact.lit (-71))];
                  [VNum (Exact.lit 41); VNum (Exact.lit (-70))];
                  [VNum (Exact.lit 40); VNum (Exact.lit (-70))];
                  [VNum (Exact.lit 40); VNum (Exact.lit (-71))] ] |}).
Defined.

(** ** [geoPointToGeometry], once more *)

Section PointComponents.
Context {Num : Type} (parseFloat : string -> Num).

(** X10. A point is read from its first two components only. A text with
    further comma-separated parts, an array with further elements and an
    object with further properties are converted like the plain
    "lat,lon", [lon, lat] and { lat, lon }: to the record { type: 'Point',
    coordinates: [lon, lat] }. *)
Theorem geoPointToGeometry_ignores_further_components
    (latText lonText moreText : string) (lon lat : value Num)
    (more : list (value Num)) (m : gmap string (value Num)) :
  occurs "," latText = false ->
  occurs "," lonText = false ->
  m !! "lat" = Some lat ->
  m !! "lon" = Some lon ->
  geoPointToGeometry parseFloat
    (VStr (latText +:+ "," +:+ lonText +:+ "," +:+ moreText))
  = Ok (VObj {[ "type" := VStr "Point";
                "coordinates" := VArr [VNum (parseFloat lonText);
                                       VNum (parseFloat latText)] ]}) /\
  geoPointToGeometry parseFloat (VArr (lon :: lat :: more))
  = Ok (VObj {[ "type" := VStr "Point";
                "coordinates" := VArr [lon; lat] ]}) /\
  geoPointToGeometry parseFloat (VObj m)
  = Ok (VObj {[ "type" := VStr "Point";
                "coordinates" := VArr [lon; lat] ]}).
Proof.
  intros Hlat Hlon Hmlat Hmlon. split; [|split].
  - unfold geoPointToGeometry; cbv zeta.
    change (latText +:+ "," +:+ lonText +:+ "," +:+ moreText)
      with (latText +:+ String "," (lonText +:+ String "," moreText)).
    rewrite (split_app _ _ _ Hlat), (split_app _ _ _ Hlon). simpl.
    by destruct (split "," moreText).
  - done.
  - unfold geoPointToGeometry, prop, bind. by rewrite Hmlat, Hmlon.
Qed.
End PointComponents.

(** A point with an altitude, in the three encodings. *)
Lemma geoPointToGeometry_ignores_further_components_witness :
  let point : result Exact.num (value Exact.num) :=
    Ok (VObj {[ "type" := VStr "Point";
                "coordinates" := VArr [VNum (Exact.lit (-71));
                                       VNum (Exact.lit 41)] ]}) in
  geoPointToGeometry Exact.parseInteger (VStr "41,-71,120") = point /\
  geoPointToGeometry Exact.parseInteger
    (VArr [VNum (Exact.lit (-71)); VNum (Exact.lit 41); VNum (Exact.lit 120)])
  = point /\
  geoPointToGeometry Exact.parseInteger
    (VObj {[ "lat" := VNum (Exact.lit 41); "lon" := VNum (Exact.lit (-71));
             "alt" := VNum (Exact.lit 120) ]})
  = point.
Proof.
  apply (geoPointToGeometry_ignores_further_components Exact.parseInteger
           "41" "-71" "120" (VNum (Exact.lit (-71))) (VNum (Exact.lit 41))
           [VNum (Exact.lit 120)]
           {[ "lat" := VNum (Exact.lit 41); "lon" := VNum (Exact.lit (-71));
              "alt" := VNum (Exact.lit 120) ]});
    reflexivity.
Defined.

(** ** [axisConfig] *)

Section AxisConfigFacts.
Context {Num : Type}.
Context (momentUtcValueOf : string -> Num) (isNaN : value Num -> bool).

Lemma includes_positions (args : gmap string (value Num)) :
  includes positions (arg args "position")
  = accepted_position (args !! "position").
Proof.
  unfold arg, includes, positions, accepted_position, is_str; simpl.
  destruct (args !! "position") as [[| | b | n | p | l | m]|]; simpl;
    try done.
  by rewrite orb_false_r, !orb_assoc.
Qed.

Lemma checked_bound (args : gmap string (value Num)) (k : string) :
  negb (is_nullish (axisValue momentUtcValueOf (arg args k)))
  && isNaN (axisValue momentUtcValueOf (arg args k))
  = negb (acceptable momentUtcValueOf isNaN (args !! k)).
Proof.
  unfold arg, acceptable.
  destruct (args !! k) as [[| | b | n | s | l | m]|]; simpl;
    by rewrite ?negb_involutive.
Qed.

Lemma axisValue_arg (args : gmap string (value Num)) (k : string) :
  axisValue momentUtcValueOf (arg args k)
  = expected_bound momentUtcValueOf (args !! k).
Proof.
  unfold arg, expected_bound.
  by destruct (args !! k) as [[| | b | n | s | l | m]|].
Qed.

(** X17. When the function returns and what it throws. It returns exactly
    when the position is there and is one of the texts 'top', 'bottom',
    'left', 'right' and '', and each of [min] and [max] is absent, null, or
    not rejected by [isNaN], a text being judged by the date that [moment]
    reads from it; the other arguments are never checked. Otherwise it
    throws the error of the first check that fails, the position before
    [min] before [max], built from the argument as it was given
    ([undefined] when it is absent). *)
Theorem axisConfig_returns_iff (args : gmap string (value Num)) :
  returns (axisConfig_fn momentUtcValueOf isNaN args)
  = accepted_position (args !! "position")
    && acceptable momentUtcValueOf isNaN (args !! "min")
    && acceptable momentUtcValueOf isNaN (args !! "max") /\
  (if negb (accepted_position (args !! "position"))
   then axisConfig_fn momentUtcValueOf isNaN args
        = inl (positionInvalid (default VUndefined (args !! "position")))
   else if negb (acceptable momentUtcValueOf isNaN (args !! "min"))
   then axisConfig_fn momentUtcValueOf isNaN args
        = inl (minInvalid (default VUndefined (args !! "min")))
   else if negb (acceptable momentUtcValueOf isNaN (args !! "max"))
   then axisConfig_fn momentUtcValueOf isNaN args
        = inl (maxInvalid (default VUndefined (args !! "max")))
   else True).
Proof.
  unfold axisConfig_fn.
  rewrite includes_positions, !checked_bound.
  destruct (accepted_position (args !! "position")); simpl; [|done].
  destruct (acceptable momentUtcValueOf isNaN (args !! "min")); simpl;
    [|done].
  by destruct (acceptable momentUtcValueOf isNaN (args !! "max")).
Qed.

(** X18. What the function returns. The result holds the position as given,
    [min] and [max] with a text replaced by the milliseconds of its date and
    anything else as given, and every further argument ([show],
    [tickSize], ...) as given. Its [type] is 'axisConfig' unless the
    arguments have a [type] of their own, which then replaces it: the
    remaining arguments are spread last. *)
Theorem axisConfig_result (args : gmap string (value Num))
    (config : value Num) :
  axisConfig_fn momentUtcValueOf isNaN args = inr config ->
  exists m,
    config = VObj m /\
    m !! "position" = Some (default VUndefined (args !! "position")) /\
    m !! "min"
    = Some (match args !! "min" with
            | Some (VStr text) => VNum (momentUtcValueOf text)
            | Some v => v
            | None => VUndefined
            end) /\
    m !! "max"
    = Some (match args !! "max" with
            | Some (VStr text) => VNum (momentUtcValueOf text)
            | Some v => v
            | None => VUndefined
            end) /\
    m !! "type" = Some (default (VStr "axisConfig") (args !! "type")) /\
    forall k, k <> "position" -> k <> "min" -> k <> "max" -> k <> "type" ->
              m !! k = args !! k.
Proof.
  unfold axisConfig_fn.
  destruct (negb (includes positions (arg args "position"))); [done|].
  destruct (negb (is_nullish _) && isNaN _); [done|].
  destruct (negb (is_nullish _) && isNaN _); [done|].
  intros [= <-]. eexists. split; [done|].
  rewrite !axisValue_arg. unfold arg, expected_bound.
  repeat split.
  - rewrite lookup_union_r by (by rewrite lookup_delete_eq).
    rewrite !lookup_insert_ne by done. by rewrite lookup_singleton_eq.
  - rewrite lookup_union_r
      by (by rewrite lookup_delete_ne, lookup_delete_eq by done).
    by rewrite lookup_insert_eq.
  - rewrite lookup_union_r
      by (by rewrite !lookup_delete_ne, lookup_delete_eq by done).
    by rewrite lookup_insert_ne, lookup_insert_eq by done.
  - rewrite lookup_union, !lookup_delete_ne by done.
    rewrite !lookup_insert_ne, lookup_insert_eq by done.
    by destruct (args !! "type").
  - intros k Hp Hmin Hmax Hty.
    rewrite lookup_union, !lookup_delete_ne by done.
    rewrite !lookup_insert_ne, lookup_singleton_ne by done.
    by destruct (args !! k).
Qed.
End AxisConfigFacts.

(** Three calls, with a reading of dates that knows one date and the
    [isNaN] of numbers: a position that is not one of the five, a [min]
    that is no date, and arguments that pass. *)
Lemma axisConfig_returns_iff_witness :
  let moment text :=
    if String.eqb text "1970-01-01T00:00:01Z" then Exact.lit 1000
    else Exact.NaN in
  let isNaN (v : value Exact.num) :=
    match v with VNum Exact.NaN => true | _ => false end in
  axisConfig_fn moment isNaN {[ "position" := VStr "middle" ]}
  = inl (positionInvalid (VStr "middle")) /\
  axisConfig_fn moment isNaN
    {[ "position" := VStr "left"; "min" := VStr "yesterday" ]}
  = inl (minInvalid (VStr "yesterday")) /\
  returns (axisConfig_fn moment isNaN
             {[ "position" := VStr "";
                "max" := VStr "1970-01-01T00:00:01Z" ]})
  = true.
Proof.
  intros moment isNaN. split; [|split].
  - exact (proj2 (axisConfig_returns_iff moment isNaN
                    {[ "position" := VStr "middle" ]})).
  - exact (proj2 (axisConfig_returns_iff moment isNaN
                    {[ "position" := VStr "left";
                       "min" := VStr "yesterday" ]})).
  - rewrite (proj1 (axisConfig_returns_iff moment isNaN _)).
    vm_compute; reflexivity.
Defined.

(** The arguments [{position: 'left', min: '1970-01-01T00:00:01Z', max: 5,
    show: true, type: 'custom'}]: the text becomes its milliseconds, the
    number stays, and the [type] of the arguments replaces 'axisConfig'. *)
Lemma axisConfig_result_witness :
  let moment text :=
    if String.eqb text "1970-01-01T00:00:01Z" then Exact.lit 1000
    else Exact.NaN in
  let isNaN (v : value Exact.num) :=
    match v with VNum Exact.NaN => true | _ => false end in
  let args : gmap string (value Exact.num) :=
    {[ "position" := VStr "left"; "min" := VStr "1970-01-01T00:00:01Z";
       "max" := VNum (Exact.lit 5); "show" := VBool true;
       "type" := VStr "custom" ]} in
  exists m,
    axisConfig_fn moment isNaN args = inr (VObj m) /\
    m !! "position" = Some (VStr "left") /\
    m !! "min" = Some (VNum (Exact.lit 1000)) /\
    m !! "max" = Some (VNum (Exact.lit 5)) /\
    m !! "type" = Some (VStr "custom") /\
    m !! "show" = Some (VBool true).
Proof.
  intros moment isNaN args.
  destruct (axisConfig_result moment isNaN args _ eq_refl)
    as (m & Hconfig & Hposition & Hmin & Hmax & Htype & Hrest).
  exists m. split; [by rewrite <- Hconfig|].
  rewrite Hposition, Hmin, Hmax, Htype, (Hrest "show") by done.
  repeat split; vm_compute; reflexivity.
Defined.

(** ** [applyElementStrings] *)

Section ElementStringsFacts.
Context {Num : Type} (elementStrings : gmap string ElementStrings).

Lemma replace_name (k : string) (s : option string) (spec : ElementSpec Num) :
  name (replace k s spec) = name spec.
Proof. unfold replace. by destruct (registered s). Qed.

Lemma replace_lookup (k k' : string) (s : option string)
    (spec : ElementSpec Num) :
  others (replace k s spec) !! k'
  = if bool_decide (k' = k)
    then match registered s with
         | Some s' => Some (VStr s')
         | None => others spec !! k
         end
    else others spec !! k'.
Proof.
  unfold replace. case_bool_decide as Hk; [subst k'|];
    destruct (registered s); simpl; try done.
  - by rewrite lookup_insert_eq.
  - by rewrite lookup_insert_ne.
Qed.

Lemma registered_nonempty (s : option string) :
  registered s
  = match s with
    | Some text => if bool_decide (text = "") then None else Some text
    | None => None
    end.
Proof. by destruct s as [[|a text]|]. Qed.

(** X19. The strings of one element. The new specification has the name of
    the old one. Its [help] is the help string that the table holds for that
    name, and its [displayName] the display name that the table holds; when
    the table has no entry for the name, the entry lacks the string, or the
    string is empty, the property is that of the old specification, absent
    if it was absent. Every other property is as it was. *)
Theorem applyElementString_lookup (spec : ElementSpec Num) (k : string) :
  name (applyElementString elementStrings spec) = name spec /\
  others (applyElementString elementStrings spec) !! k
  = if bool_decide (k = "help")
    then match registered_for elementStrings help spec with
         | Some s => Some (VStr s)
         | None => others spec !! "help"
         end
    else if bool_decide (k = "displayName")
    then match registered_for elementStrings displayName spec with
         | Some s => Some (VStr s)
         | None => others spec !! "displayName"
         end
    else others spec !! k.
Proof.
  unfold applyElementString, registered_for.
  destruct (elementStrings !! name spec) as [strings|]; simpl.
  - split; [by rewrite !replace_name|].
    rewrite !replace_lookup, !registered_nonempty.
    repeat case_bool_decide; simplify_eq; try done;
      by repeat case_match.
  - split; [done|]. by repeat case_bool_decide; simplify_eq.
Qed.

Lemma ElementSpec_eq (spec spec' : ElementSpec Num) :
  name spec = name spec' ->
  (forall k, others spec !! k = others spec' !! k) ->
  spec = spec'.
Proof.
  destruct spec as [n o], spec' as [n' o']; simpl.
  intros -> Ho. f_equal. by apply map_eq.
Qed.

(** X20. Applying the strings twice is applying them once, and the list
    keeps its length and its order: the i-th specification of the result is
    the i-th specification of the input with its strings replaced. *)
Theorem applyElementStrings_idempotent (elements : list (ElementSpec Num)) :
  applyElementStrings elementStrings
    (applyElementStrings elementStrings elements)
  = applyElementStrings elementStrings elements /\
  forall i,
    applyElementStrings elementStrings elements !! i
    = applyElementString elementStrings <$> (elements !! i).
Proof.
  unfold applyElementStrings. split; [|intros i; apply list_lookup_fmap].
  rewrite <- list_fmap_compose. apply list_fmap_ext. intros i spec _. simpl.
  unfold applyElementString.
  destruct (elementStrings !! name spec) as [strings|] eqn:Hstrings.
  - rewrite !replace_name, Hstrings.
    apply ElementSpec_eq; [by rewrite !replace_name|].
    intros k. rewrite !replace_lookup.
    repeat case_bool_decide; simplify_eq; try done;
      by repeat case_match.
  - by rewrite Hstrings.
Qed.
End ElementStringsFacts.

(** ** [createExtentFilter], once more *)

Section FilterBounds.
Context {Num : Type} `{JsNumber Num}.

(** One bound after the test [a < lo ? lo : a], given that [lo] is not below
    itself. *)
Lemma clamped_not_below (lo : Z) (a : Num) :
  (num_lit lo <? num_lit lo)%js = false ->
  ((if (a <? num_lit lo)%js then num_lit lo else a) <? num_lit lo)%js = false.
Proof. intros Hlo. by destruct (a <? num_lit lo)%js eqn:Ha. Qed.

Lemma clamped_not_above (hi : Z) (a : Num) :
  (num_lit hi >? num_lit hi)%js = false ->
  ((if (a >? num_lit hi)%js then num_lit hi else a) >? num_lit hi)%js = false.
Proof. intros Hhi. by destruct (a >? num_lit hi)%js eqn:Ha. Qed.

Lemma createExtentFilter_sides (e : MapExtent Num) (geoFieldName : string)
    (geoFieldType : value Num) (f : ExtentFilter Num) :
  (num_lit (-180) <? num_lit (-180))%js = false ->
  (num_lit (-90) <? num_lit (-90))%js = false ->
  (num_lit 180 >? num_lit 180)%js = false ->
  (num_lit 90 >? num_lit 90)%js = false ->
  createExtentFilter e geoFieldName geoFieldType = Ok f ->
  exists west east north south,
    filter_lons f = [west; east] /\ filter_lats f = [north; south] /\
    (west <? num_lit (-180))%js = false /\
    (east >? num_lit 180)%js = false /\
    (south <? num_lit (-90))%js = false /\
    (north >? num_lit 90)%js = false.
Proof.
  intros Hw Hs He Hn.
  pose proof (clamped_not_below (-180) (minLon e) Hw) as Hw'.
  pose proof (clamped_not_below (-90) (minLat e) Hs) as Hs'.
  pose proof (clamped_not_above 180 (maxLon e) He) as He'.
  pose proof (clamped_not_above 90 (maxLat e) Hn) as Hn'.
  unfold createExtentFilter.
  destruct (is_str "geo_point" geoFieldType);
    [|destruct (is_str "geo_shape" geoFieldType); [|done]];
    intros [= <-]; eexists _, _, _, _; by repeat split.
Qed.
End FilterBounds.

(** X8. What the clamping guarantees for every extent, NaN bounds included,
    in exact arithmetic and in binary64 alike: in a filter that is returned,
    the western longitude is never below -180, the eastern never above 180,
    the southern latitude never below -90 and the northern never above 90.
    (The other side of each bound is not tested: see C1.) *)
Theorem createExtentFilter_one_sided (geoFieldName : string) :
  (forall (e : MapExtent Exact.num) geoFieldType f,
     createExtentFilter e geoFieldName geoFieldType = Ok f ->
     exists west east north south,
       filter_lons f = [west; east] /\ filter_lats f = [north; south] /\
       (west <? num_lit (-180))%js = false /\
       (east >? num_lit 180)%js = false /\
       (south <? num_lit (-90))%js = false /\
       (north >? num_lit 90)%js = false) /\
  (forall (e : MapExtent float) geoFieldType f,
     createExtentFilter e geoFieldName geoFieldType = Ok f ->
     exists west east north south,
       filter_lons f = [west; east] /\ filter_lats f = [north; south] /\
       (west <? num_lit (-180))%js = false /\
       (east >? num_lit 180)%js = false /\
       (south <? num_lit (-90))%js = false /\
       (north >? num_lit 90)%js = false).
Proof.
  split; intros e geoFieldType f Hf;
    by apply (createExtentFilter_sides e geoFieldName geoFieldType).
Qed.

(** The extent [{maxLat: 100, maxLon: 209, minLat: -100, minLon: -191}], in
    binary64. *)
Lemma createExtentFilter_one_sided_witness :
  exists west east north south,
    filter_lons (geo_bounding_box "location"
                   {| lat := 90%float; lon := (-180)%float |}
                   {| lat := (-90)%float; lon := 180%float |})
    = [west; east] /\
    filter_lats (geo_bounding_box "location"
                   {| lat := 90%float; lon := (-180)%float |}
                   {| lat := (-90)%float; lon := 180%float |})
    = [north; south] /\
    (west <? num_lit (-180))%js = false /\
    (east >? num_lit 180)%js = false /\
    (south <? num_lit (-90))%js = false /\
    (north >? num_lit 90)%js = false.
Proof.
  apply (proj2 (createExtentFilter_one_sided "location")
           {| maxLat := 100%float; maxLon := 209%float;
              minLat := (-100)%float; minLon := (-191)%float |}
           (VStr "geo_point")).
  reflexivity.
Defined.

(** ** Collections of points *)

Section PointCollections.
Context {Num : Type} (parseFloat : string -> Num).
Context (lodash_has : Hit Num -> string -> bool).
Context (lodash_get : Hit Num -> string -> value Num).

Lemma mapM_Ok_inv {A B : Type} (f : A -> result Num B) (l : list A)
    (bs : list B) :
  mapM f l = Ok bs -> Forall2 (fun a b => f a = Ok b) l bs.
Proof.
  revert bs. induction l as [|a l IH]; intros bs; simpl.
  - intros [= <-]. constructor.
  - destruct (f a) as [b|] eqn:Hfa; [simpl|done].
    destruct (mapM f l) as [bs'|]; [simpl|done].
    intros [= <-]. constructor; [done|]. by apply IH.
Qed.

(** Whatever the conversion of a point returns is a point. *)
Lemma geoPointToGeometry_Ok_inv (v geometry : value Num) :
  geoPointToGeometry parseFloat v = Ok geometry ->
  exists lon lat,
    geometry = VObj {[ "type" := VStr "Point";
                       "coordinates" := VArr [lon; lat] ]}.
Proof.
  destruct v as [| | b | n | s | l | m]; simpl;
    try (intros [= <-]; by eexists _, _).
  destruct (length (split "," s) =? 1)%nat; [done|].
  intros [= <-]. by eexists _, _.
Qed.

(** X16. With the field type [geo_point], a collection that is returned is
    the record { type: 'FeatureCollection', features } with one feature for
    each record in which [_.has] finds the geo field, and every feature is a
    record { type: 'Feature', geometry, properties } whose geometry is a
    point: the record { type: 'Point', coordinates } with an array of
    exactly two coordinates. *)
Theorem hitsToGeoJson_point_geometries (hits : list (Hit Num))
    (geoFieldName : string) (collection : value Num) :
  hitsToGeoJson parseFloat lodash_has lodash_get hits geoFieldName
    (VStr "geo_point")
  = Ok collection ->
  exists features,
    collection = VObj {[ "type" := VStr "FeatureCollection";
                         "features" := VArr features ]} /\
    length features
    = length (filter (fun hit =>
                        lodash_has hit ("_source[" +:+ geoFieldName +:+ "]")
                        = true) hits) /\
    Forall (fun feature =>
              exists lon lat properties,
                feature
                = VObj {[ "type" := VStr "Feature";
                          "geometry" :=
                            VObj {[ "type" := VStr "Point";
                                    "coordinates" := VArr [lon; lat] ]};
                          "properties" := VObj properties ]})
           features.
Proof.
  unfold hitsToGeoJson, source_path.
  destruct (mapM _ (filter _ hits)) as [features|] eqn:Hmap; [simpl|done].
  intros [= <-]. exists features. split; [done|].
  apply mapM_Ok_inv in Hmap. split; [symmetry; by eapply Forall2_length|].
  induction Hmap as [|hit feature kept features Hhit _ IH]; constructor;
    [|done].
  apply hitToFeature_Ok_inv in Hhit
    as (geometry & properties & -> & Hgeometry).
  simpl in Hgeometry.
  apply geoPointToGeometry_Ok_inv in Hgeometry as (lon & lat & ->). eauto.
Qed.
End PointCollections.

(** Three records of which the second lacks the geo field: two features,
    both points. *)
Lemma hitsToGeoJson_point_geometries_witness :
  let hits : list (Hit Exact.num) :=
    [ {| _source := Some {[ "location" := VStr "41,-71" ]}; fields := None |};
      {| _source := Some {[ "name" := VStr "b" ]}; fields := None |};
      {| _source := Some {[ "location" := VNull ]}; fields := None |} ] in
  exists features,
    hitsToGeoJson Exact.parseInteger plain_has plain_get hits "location"
      (VStr "geo_point")
    = Ok (VObj {[ "type" := VStr "FeatureCollection";
                  "features" := VArr features ]}) /\
    length features = 2 /\
    Forall (fun feature =>
              exists lon lat properties,
                feature
                = VObj {[ "type" := VStr "Feature";
                          "geometry" :=
                            VObj {[ "type" := VStr "Point";
                                    "coordinates" := VArr [lon; lat] ]};
                          "properties" := VObj properties ]})
           features.
Proof.
  intros hits.
  destruct (hitsToGeoJson_point_geometries Exact.parseInteger plain_has
              plain_get hits "location" _ eq_refl)
    as (features & Hcollection & Hlength & Hpoints).
  exists features. split; [by rewrite <- Hcollection|]. by split.
Defined.

(** ** Strings of elements, on an example *)

(** The table registers for the element [markdown] the display name
    'Markdown' and an empty help: the display name is set, the help of the
    specification stays, and so does its [image]. *)
Lemma applyElementString_lookup_witness :
  let elementStrings : gmap string ElementStrings :=
    {[ "markdown" := {| displayName := Some "Markdown"; help := Some "" |} ]} in
  let spec : ElementSpec Exact.num :=
    {| name := "markdown";
       others := {[ "help" := VStr "Markup from Markdown";
                    "image" := VStr "header.png" ]} |} in
  name (applyElementString elementStrings spec) = "markdown" /\
  others (applyElementString elementStrings spec) !! "help"
  = Some (VStr "Markup from Markdown") /\
  others (applyElementString elementStrings spec) !! "displayName"
  = Some (VStr "Markdown") /\
  others (applyElementString elementStrings spec) !! "image"
  = Some (VStr "header.png").
Proof.
  intros elementStrings spec.
  rewrite (proj1 (applyElementString_lookup elementStrings spec "help")).
  rewrite (proj2 (applyElementString_lookup elementStrings spec "help")).
  rewrite (proj2 (applyElementString_lookup elementStrings spec
                    "displayName")).
  rewrite (proj2 (applyElementString_lookup elementStrings spec "image")).
  repeat split; vm_compute; reflexivity.
Defined.

(** ** Fields named [__proto__] *)

(** The document has a field [__proto__] that is null and the computed
    fields have one that is [5]: the first assignment replaces the prototype
    of the properties and stores nothing, the second, no setter being in
    reach any more, stores an own property. With the computed field alone
    the number is not an object and nothing is stored. *)
Example hitToFeature_proto_fields :
  hitToFeature Exact.parseInteger plain_get "location" (VStr "geo_point")
    {| _source := Some {[ "location" := VStr "1,2"; "__proto__" := VNull ]};
       fields := Some {[ "__proto__" := VArr [VNum (Exact.lit 5)] ]} |}
  = Ok (VObj {[ "type" := VStr "Feature";
                "geometry" :=
                  VObj {[ "type" := VStr "Point";
                          "coordinates" := VArr [VNum (Exact.lit 2);
                                                 VNum (Exact.lit 1)] ]};
                "properties" :=
                  VObj {[ "__proto__" := VNum (Exact.lit 5) ]} ]}) /\
  hitToFeature Exact.parseInteger plain_get "location" (VStr "geo_point")
    {| _source := Some {[ "location" := VStr "1,2" ]};
       fields := Some {[ "__proto__" := VArr [VNum (Exact.lit 5)] ]} |}
  = Ok (VObj {[ "type" := VStr "Feature";
                "geometry" :=
                  VObj {[ "type" := VStr "Point";
                          "coordinates" := VArr [VNum (Exact.lit 2);
                                                 VNum (Exact.lit 1)] ]};
                "properties" := VObj ∅ ]}).
Proof. split; vm_compute; reflexivity. Qed.
